(** * giftbitrage_bot: a shallow embedding of the arbitrage engine

    The Python module [giftbitrage_bot.py] is embedded function by function.
    Conventions of the embedding:

    - a Python [str] is the list of its Unicode code points ([list N]);
    - a Python [float] (and the JSON numbers that become floats) is an exact
      rational ([Q]); rounding, infinities and NaN are outside the model;
    - values received from the market libraries are untyped JSON ([pyval]);
    - a Python function that may raise returns [result _ exn];
    - a [dict] that is only looked up is a [gmap]; a [dict] whose insertion
      order is observed through [.items()] is an association list;
    - the market libraries ([getGifts], [getAuctions], [search],
      [update_auth]) and the two builtins whose tables are not part of the
      repository ([str.lower], [float] applied to a [str]) are Section
      variables. *)

From Stdlib Require Import QArith Lqa Ascii String.
From stdpp Require Import base option list gmap sets sorting.

Local Open Scope Q_scope.

(** ** Python values *)

Abbreviation pystr := (list N).

Inductive exn : Type :=
| ZeroDivisionError
| TypeError
| ValueError
| OtherError.

Abbreviation failing A := (result A exn).

#[warnings="-register-all"]
Inductive pyval : Type :=
| PNone
| PBool (b : bool)
| PNum (q : Q)
| PStr (s : pystr)
| PList (l : list pyval)
| PDict (d : list (pystr * pyval)).

(** An ASCII literal as a Python string. *)
Definition str (s : string) : pystr :=
  List.map N_of_ascii (list_ascii_of_string s).

(** [bool(v)]: Python truthiness. *)
Definition py_bool (v : pyval) : bool :=
  match v with
  | PNone => false
  | PBool b => b
  | PNum q => negb (Qeq_bool q 0)
  | PStr s => match s with [] => false | _ => true end
  | PList l => match l with [] => false | _ => true end
  | PDict d => match d with [] => false | _ => true end
  end.

(** [a or b] on values. *)
Definition py_or (a b : pyval) : pyval := if py_bool a then a else b.

Fixpoint assoc_get {A B} `{EqDecision A} (k : A) (d : list (A * B)) : option B :=
  match d with
  | [] => None
  | (k', v) :: d' => if decide (k = k') then Some v else assoc_get k d'
  end.

(** [d.get(key)]: [None] when the key is absent. *)
Definition py_get (d : list (pystr * pyval)) (key : string) : pyval :=
  default PNone (assoc_get (str key) d).

(** ** Exceptions *)

Definition bind {A B} (m : failing A) (k : A -> failing B) : failing B :=
  match m with
  | Ok a => k a
  | Error e => Error e
  end.

Notation "'let*' x := m 'in' k" := (bind m (fun x => k))
  (at level 10, x name, m at level 100, k at level 200).

(** A [for] loop whose body either raises, [continue]s ([None]) or appends
    one element to the output list ([Some]). *)
Fixpoint for_append {A B} (body : A -> failing (option B)) (l : list A)
  : failing (list B) :=
  match l with
  | [] => Ok []
  | a :: l' =>
      let* o := body a in
      let* r := for_append body l' in
      Ok (match o with Some b => b :: r | None => r end)
  end.

(** A [for] loop that threads an accumulator and may raise. *)
Fixpoint for_fold {A S} (body : S -> A -> failing S) (s : S) (l : list A)
  : failing S :=
  match l with
  | [] => Ok s
  | a :: l' => let* s' := body s a in for_fold body s' l'
  end.

(** ** Numbers *)

Definition Qltb (x y : Q) : bool :=
  (Qnum x * QDen y <? Qnum y * QDen x)%Z.

(** [a / b] on floats raises [ZeroDivisionError] when [b] is zero. *)
Definition py_div (a b : Q) : failing Q :=
  if Qeq_bool b 0 then Error ZeroDivisionError else Ok (a / b).

(** [int(x)] truncates towards zero. *)
Definition py_int (x : Q) : Z := Z.quot (Qnum x) (QDen x).

(** ** Fee settings *)

Definition COMMISSION_RATE_TONNEL : Q := 0.06.
Definition COMMISSION_RATE_PORTALS : Q := 0.05.
Definition TRANSFER_FEE : Q := 0.15.

(** ** The candidate record *)

Inductive market : Type :=
| Tonnel          (* "Tonnel" *)
| Portals         (* "Portals" *)
| TonnelAuction.  (* "Tonnel (auction)" *)

Global Instance market_eq_dec : EqDecision market.
Proof. solve_decision. Defined.

Record GiftCandidate : Type := mkGiftCandidate {
  name : pystr;
  model : pystr;
  backdrop : pyval;
  symbol : pyval;
  price_buy : Q;
  price_sell : Q;
  profit_absolute : Q;
  profit_percent : Q;
  market_buy : market;
  market_sell : market;
  clean : bool
}.

(** ** normalise_name *)

(** The characters matched by [\s] in a [str] pattern (CPython's
    [Py_UNICODE_ISSPACE]). *)
Definition is_space (c : N) : bool :=
  ((9 <=? c) && (c <=? 13) || (28 <=? c) && (c <=? 32)
   || (c =? 133) || (c =? 160) || (c =? 5760)
   || (8192 <=? c) && (c <=? 8202)
   || (c =? 8232) || (c =? 8233) || (c =? 8239) || (c =? 8287)
   || (c =? 12288))%N.

(** The character class [[\s\-'’]]: whitespace, hyphen-minus (45),
    apostrophe (39) and the typographic apostrophe U+2019 (8217). *)
Definition name_noise (c : N) : bool :=
  (is_space c || (c =? 45) || (c =? 39) || (c =? 8217))%N.

(** [re.sub(r"[\s\-'’]", "", name)] *)
Definition re_sub_noise (name : pystr) : pystr :=
  List.filter (fun c => negb (name_noise c)) name.

(** [str.lower] on the ASCII letters; the instance of the builtin used to
    run the embedding on ASCII data. *)
Definition ascii_lower_char (c : N) : N :=
  (if (65 <=? c) && (c <=? 90) then c + 32 else c)%N.

Definition ascii_lower (s : pystr) : pystr := List.map ascii_lower_char s.

Definition is_ascii (s : pystr) : Prop := Forall (fun c => (c < 128)%N) s.

Section Engine.

(** [str.lower()], whose Unicode case tables are not part of the
    repository. *)
Variable str_lower : pystr -> pystr.

(** [float(s)] for a [str] argument: [None] stands for [ValueError]. *)
Variable str_to_float : pystr -> option Q.

(** [tonnelmp.getGifts(limit=30, page, sort="price_asc",
    price_range=[min_price, max_price], asset="TON", authData, proxies)]. *)
Variable getGifts : Z -> Q * Q -> pystr -> failing pyval.

(** [tonnelmp.getAuctions(page, limit=30, price_range, authData, proxies)]. *)
Variable getAuctions : Z -> Z * Z -> pystr -> failing pyval.

(** [portalsmp.search(sort="price_asc", offset=0, limit=2, gift_name, model,
    authData)]. *)
Variable search : pystr -> pystr -> pystr -> failing pyval.

(** [portalsmp.update_auth(api_id, api_hash)]. *)
Variable update_auth : pystr -> pystr -> failing pystr.

Definition normalise_name (name : pystr) : pystr :=
  str_lower (re_sub_noise name).

(** [normalise_name] applied to a value that was not checked to be a [str]:
    [re.sub] raises [TypeError] on anything else. *)
Definition normalise_name_dyn (v : pyval) : failing pystr :=
  match v with
  | PStr s => Ok (normalise_name s)
  | _ => Error TypeError
  end.

(** [float(v)] *)
Definition py_float (v : pyval) : failing Q :=
  match v with
  | PNum q => Ok q
  | PBool b => Ok (if b then 1 else 0)
  | PStr s => match str_to_float s with
              | Some q => Ok q
              | None => Error ValueError
              end
  | PNone | PList _ | PDict _ => Error TypeError
  end.

(** ** Pagination *)

(** What one turn of a [while] loop does to the accumulated list: [break]
    with the value the function then returns (or the exception that leaves
    it), or go on to the next page. *)
Inductive turn : Type :=
| Break (out : failing (list pyval))
| Next (acc : list pyval).

(** [while page <= max_pages: ...; page += 1], together with the pages that
    were requested, in the order of the requests.  [fuel] bounds the number
    of turns; [paginate_fuel] below shows that the bound is never what ends
    the loop. *)
Fixpoint paginate (body : Z -> list pyval -> turn) (max_pages : Z)
    (fuel : nat) (page : Z) (acc : list pyval)
  : list Z * failing (list pyval) :=
  match fuel with
  | O => ([], Ok acc)
  | S fuel' =>
      if (page <=? max_pages)%Z then
        match body page acc with
        | Break out => ([page], out)
        | Next acc' =>
            let '(pages, out) := paginate body max_pages fuel' (page + 1) acc' in
            (page :: pages, out)
        end
      else ([], Ok acc)
  end.

(** The elements [list.extend(v)] appends; a number, a bool or [None] is not
    iterable. *)
Definition py_iter (v : pyval) : failing (list pyval) :=
  match v with
  | PList l => Ok l
  | PDict d => Ok (List.map (fun kv => PStr (fst kv)) d)
  | PStr s => Ok (List.map (fun c => PStr [c]) s)
  | PNone | PBool _ | PNum _ => Error TypeError
  end.

Definition is_str (v : pyval) : bool :=
  match v with PStr _ => true | _ => false end.

Definition is_list (v : pyval) : bool :=
  match v with PList _ => true | _ => false end.

(** The body of the loop of [fetch_tonnel_gifts]. *)
Definition gifts_turn (auth_data : pystr) (min_price max_price : Q)
    (page : Z) (all_gifts : list pyval) : turn :=
  match getGifts page (min_price, max_price) auth_data with
  | Error _ => Break (Ok all_gifts)
  | Ok gifts_page =>
      if negb (py_bool gifts_page) then Break (Ok all_gifts)
      else if is_str gifts_page then Break (Ok all_gifts)
      else
        match py_iter gifts_page with
        | Error e => Break (Error e)
        | Ok items =>
            let all_gifts := all_gifts ++ items in
            if (length items <? 30)%nat then Break (Ok all_gifts)
            else Next all_gifts
        end
  end.

Definition fetch_tonnel_gifts_paged (auth_data : pystr)
    (min_price max_price : Q) (max_pages : Z)
  : list Z * failing (list pyval) :=
  paginate (gifts_turn auth_data min_price max_price) max_pages
    (Z.to_nat max_pages) 1 [].

Definition fetch_tonnel_gifts (auth_data : pystr) (min_price max_price : Q)
    (max_pages : Z) : failing (list pyval) :=
  snd (fetch_tonnel_gifts_paged auth_data min_price max_price max_pages).

(** The body of the loop of [fetch_tonnel_auctions]. *)
Definition auctions_turn (auth_data : pystr) (price_range : Z * Z)
    (page : Z) (auctions : list pyval) : turn :=
  match getAuctions page price_range auth_data with
  | Error _ => Break (Ok auctions)
  | Ok page_auctions =>
      if negb (py_bool page_auctions) || negb (is_list page_auctions)
      then Break (Ok auctions)
      else
        match py_iter page_auctions with
        | Error e => Break (Error e)
        | Ok items =>
            let auctions := auctions ++ items in
            if (length items <? 30)%nat then Break (Ok auctions)
            else Next auctions
        end
  end.

(** [max_price] is a rational here, so the branch for an infinite
    [max_price] does not arise and [price_range] is the two-element list. *)
Definition fetch_tonnel_auctions_paged (auth_data : pystr)
    (min_price max_price : Q) (max_pages : Z)
  : list Z * failing (list pyval) :=
  let price_range := (py_int min_price, py_int max_price) in
  paginate (auctions_turn auth_data price_range) max_pages
    (Z.to_nat max_pages) 1 [].

Definition fetch_tonnel_auctions (auth_data : pystr) (min_price max_price : Q)
    (max_pages : Z) : failing (list pyval) :=
  snd (fetch_tonnel_auctions_paged auth_data min_price max_price max_pages).

(** ** Portals prices per model *)

(** [d[k] = v] on a dict in insertion order. *)
Fixpoint dict_set {K V} `{EqDecision K} (k : K) (v : V) (d : list (K * V))
  : list (K * V) :=
  match d with
  | [] => [(k, v)]
  | (k', v') :: d' =>
      if decide (k = k') then (k', v) :: d' else (k', v') :: dict_set k v d'
  end.

(** The inner loop of [fetch_portals_model_prices]: the prices of the
    listings that parse and lie within the bounds. *)
Definition listing_price (min_price max_price : Q) (item : pyval) : option Q :=
  match item with
  | PDict d =>
      match py_get d "price" with
      | PNone => None
      | price_str =>
          match py_float price_str with
          | Error _ => None
          | Ok price =>
              if Qltb price min_price || Qltb max_price price then None
              else Some price
          end
      end
  | _ => None
  end.

Definition floor_and_second (min_price max_price : Q) (listings : pyval)
  : option Q * option Q :=
  match listings with
  | PList l =>
      match omap (listing_price min_price max_price) l with
      | [] => (None, None)
      | floor_price :: rest => (Some floor_price, head rest)
      end
  | _ => (None, None)
  end.

Definition fetch_portals_model_prices (auth_data : pystr)
    (model_keys : list (pystr * pystr)) (min_price max_price : Q)
  : list ((pystr * pystr) * (option Q * option Q)) :=
  fold_left
    (fun results '(gift_name, model_name) =>
       match search gift_name model_name auth_data with
       | Error _ => dict_set (gift_name, model_name) (None, None) results
       | Ok listings =>
           dict_set (gift_name, model_name)
             (floor_and_second min_price max_price listings) results
       end)
    model_keys [].

(** ** Sorting *)

(** [list.sort(key=lambda c: c.profit_absolute, reverse=True)]: the stable
    sort by descending key, written as an insertion sort. *)
Fixpoint insert_desc (c : GiftCandidate) (l : list GiftCandidate)
  : list GiftCandidate :=
  match l with
  | [] => [c]
  | d :: l' =>
      if Qltb (profit_absolute c) (profit_absolute d)
      then d :: insert_desc c l'
      else c :: d :: l'
  end.

Definition sort_by_profit (l : list GiftCandidate) : list GiftCandidate :=
  foldr insert_desc [] l.

(** ** Auctions against Portals *)

(** The current bid of an auction, else its starting price. *)
Definition auction_buy_price (auction : list (pystr * pyval)) : option Q :=
  let highest_bid := py_get auction "highestBid" in
  let buy_price :=
    match highest_bid with
    | PDict hb =>
        match py_get hb "amount" with
        | PNone => None
        | amount => match py_float amount with
                    | Ok q => Some q
                    | Error _ => None
                    end
        end
    | _ => None
    end in
  match buy_price with
  | Some q => Some q
  | None =>
      match py_or (py_get auction "price") (py_get auction "startPrice") with
      | PNone => None
      | price_str => match py_float price_str with
                     | Ok q => Some q
                     | Error _ => None
                     end
      end
  end.

(** [portals_prices.get((gift_name, model_name))]: a tuple holding a list or
    a dict is unhashable; a tuple that is not a pair of strings equals no
    key. *)
Definition prices_get (portals_prices : list ((pystr * pystr) * (option Q * option Q)))
    (gift_name model_name : pyval)
  : failing (option ((pystr * pystr) * (option Q * option Q))) :=
  match gift_name, model_name with
  | (PList _ | PDict _), _ | _, (PList _ | PDict _) => Error TypeError
  | PStr g, PStr m =>
      Ok (match assoc_get (g, m) portals_prices with
          | Some prices => Some ((g, m), prices)
          | None => None
          end)
  | _, _ => Ok None
  end.

(** The body of the loop of [calculate_auction_flips]. *)
Definition auction_flip
    (portals_prices : list ((pystr * pystr) * (option Q * option Q)))
    (min_profit_percent : Q) (clean_status : gmap pystr bool)
    (auction : pyval) : failing (option GiftCandidate) :=
  match auction with
  | PDict a =>
      let gift_name := py_or (py_get a "gift_name") (py_get a "name") in
      let model_name := py_get a "model" in
      if negb (py_bool gift_name) || negb (py_bool model_name) then Ok None
      else
        match auction_buy_price a with
        | None => Ok None
        | Some buy_price =>
            let* prices := prices_get portals_prices gift_name model_name in
            match prices with
            | None => Ok None
            | Some ((g, m), (floor_price, second_price)) =>
                match (match second_price with
                       | Some p => Some p
                       | None => floor_price
                       end) with
                | None => Ok None
                | Some sell_price =>
                    let revenue := sell_price * (1 - COMMISSION_RATE_PORTALS) in
                    let cost := buy_price * (1 + COMMISSION_RATE_TONNEL) in
                    let profit := revenue - cost - TRANSFER_FEE in
                    if Qle_bool profit 0 then Ok None
                    else
                      let* ratio := py_div profit cost in
                      let profit_percent := ratio * 100 in
                      if Qltb profit_percent min_profit_percent then Ok None
                      else
                        let short_name := normalise_name g in
                        let clean := default true (clean_status !! short_name) in
                        Ok (Some {|
                          name := g;
                          model := m;
                          backdrop := py_or (py_get a "backdrop") (PStr []);
                          symbol := py_or (py_get a "symbol") (PStr []);
                          price_buy := buy_price * (1 + COMMISSION_RATE_TONNEL);
                          price_sell := sell_price;
                          profit_absolute := profit;
                          profit_percent := profit_percent;
                          market_buy := TonnelAuction;
                          market_sell := Portals;
                          clean := clean |})
                end
            end
        end
  | _ => Ok None
  end.

Definition calculate_auction_flips (auctions : list pyval)
    (portals_prices : list ((pystr * pystr) * (option Q * option Q)))
    (min_profit_percent : Q) (clean_status : gmap pystr bool)
  : failing (list GiftCandidate) :=
  for_append (auction_flip portals_prices min_profit_percent clean_status)
    auctions.

(** ** Flips inside Portals *)

(** The body of the loop of [calculate_portals_internal_flips]. *)
Definition internal_flip (min_profit_percent : Q)
    (item : (pystr * pystr) * (option Q * option Q))
  : failing (option GiftCandidate) :=
  let '((gift_name, model_name), (floor_price, second_price)) := item in
  match floor_price, second_price with
  | Some floor_price, Some second_price =>
      let revenue := second_price * (1 - COMMISSION_RATE_PORTALS) in
      let cost := floor_price * (1 + COMMISSION_RATE_PORTALS) in
      let profit := revenue - cost in
      if Qle_bool profit 0 then Ok None
      else
        let* ratio := py_div profit cost in
        let profit_percent := ratio * 100 in
        if Qltb profit_percent min_profit_percent then Ok None
        else
          Ok (Some {|
            name := gift_name;
            model := model_name;
            backdrop := PStr [];
            symbol := PStr [];
            price_buy := cost;
            price_sell := second_price;
            profit_absolute := profit;
            profit_percent := profit_percent;
            market_buy := Portals;
            market_sell := Portals;
            clean := true |})
  | _, _ => Ok None
  end.

Definition calculate_portals_internal_flips
    (portals_prices : list ((pystr * pystr) * (option Q * option Q)))
    (min_profit_percent : Q) : failing (list GiftCandidate) :=
  for_append (internal_flip min_profit_percent) portals_prices.

(** ** Flips per model across the markets *)

(** The body of the loop of [calculate_model_flips]. *)
Definition model_flip (tonnel_model_floors portals_model_floors : gmap (pystr * pystr) Q)
    (min_profit_percent : Q) (clean_status : option (gmap pystr bool))
    (key : pystr * pystr) : failing (option GiftCandidate) :=
  let '(gift_name, model_name) := key in
  match tonnel_model_floors !! key, portals_model_floors !! key with
  | Some price_tonnel, Some price_portal =>
      if Qltb price_tonnel price_portal then
        let price_buy_ := price_tonnel in
        let price_sell_ := price_portal in
        let market_buy_ := Tonnel in
        let market_sell_ := Portals in
        let clean_ :=
          match clean_status with
          | Some cs => default true (cs !! gift_name)
          | None => true
          end in
        let cost := price_buy_ * (1 + COMMISSION_RATE_TONNEL) in
        let proceeds := price_sell_ * (1 - COMMISSION_RATE_PORTALS) in
        let profit := proceeds - cost in
        let profit :=
          if decide (market_buy_ <> market_sell_) then profit - TRANSFER_FEE
          else profit in
        if Qle_bool cost 0 then Ok None
        else
          let* ratio := py_div profit cost in
          let profit_percent_ := ratio * 100 in
          if Qltb profit 0 || Qltb profit_percent_ min_profit_percent
          then Ok None
          else
            Ok (Some {|
              name := gift_name;
              model := model_name;
              backdrop := PStr [];
              symbol := PStr [];
              price_buy := cost;
              price_sell := price_sell_;
              profit_absolute := profit;
              profit_percent := profit_percent_;
              market_buy := market_buy_;
              market_sell := market_sell_;
              clean := clean_ |})
      else if Qltb price_portal price_tonnel then Ok None
      else Ok None
  | _, _ => Ok None
  end.

(** The keys are visited in the order in which the intersection of the two
    key sets enumerates them. *)
Definition calculate_model_flips
    (tonnel_model_floors portals_model_floors : gmap (pystr * pystr) Q)
    (min_profit_percent : Q) (clean_status : option (gmap pystr bool))
  : failing (list GiftCandidate) :=
  let* opportunities :=
    for_append
      (model_flip tonnel_model_floors portals_model_floors
         min_profit_percent clean_status)
      (elements (dom tonnel_model_floors ∩ dom portals_model_floors)) in
  Ok (sort_by_profit opportunities).

(** ** Flips per gift across the markets *)

(** First loop of [calculate_flips]: the first listing of a name decides. *)
Definition flips_clean_status (tonnel_gifts : list pyval)
  : failing (gmap pystr bool) :=
  for_fold
    (fun (clean_status : gmap pystr bool) gift =>
       match gift with
       | PDict g =>
           let name_ := py_get g "name" in
           if negb (py_bool name_) then Ok clean_status
           else
             let* short_name := normalise_name_dyn name_ in
             let signature := py_get g "signature" in
             Ok (match clean_status !! short_name with
                 | Some _ => clean_status
                 | None => <[short_name := negb (py_bool signature)]> clean_status
                 end)
       | _ => Ok clean_status
       end)
    ∅ tonnel_gifts.

(** [float(price_str)] under [except ValueError]: [None] is the [continue],
    a [TypeError] leaves the function. *)
Definition float_or_skip (price_str : pyval) : failing (option Q) :=
  match py_float price_str with
  | Ok price => Ok (Some price)
  | Error ValueError => Ok None
  | Error e => Error e
  end.

(** Second loop of [calculate_flips]: the cheapest listing of each name. *)
Definition tonnel_floors_of (tonnel_gifts : list pyval)
  : failing (gmap pystr Q) :=
  for_fold
    (fun (tonnel_floors : gmap pystr Q) gift =>
       match gift with
       | PDict g =>
           let name_ := py_get g "name" in
           if negb (py_bool name_) then Ok tonnel_floors
           else
             let* short_name := normalise_name_dyn name_ in
             match py_get g "price" with
             | PNone => Ok tonnel_floors
             | price_str =>
                 let* parsed := float_or_skip price_str in
                 match parsed with
                 | None => Ok tonnel_floors
                 | Some price =>
                     Ok (match tonnel_floors !! short_name with
                         | None => <[short_name := price]> tonnel_floors
                         | Some current =>
                             if Qltb price current
                             then <[short_name := price]> tonnel_floors
                             else tonnel_floors
                         end)
                 end
             end
       | _ => Ok tonnel_floors
       end)
    ∅ tonnel_gifts.

Definition commission (m : market) : Q :=
  match m with
  | Tonnel => COMMISSION_RATE_TONNEL
  | _ => COMMISSION_RATE_PORTALS
  end.

(** Third loop of [calculate_flips].  No transfer fee is subtracted here. *)
Definition gift_flip (clean_status : gmap pystr bool)
    (tonnel_floors portal_floors : gmap pystr Q) (min_profit_percent : Q)
    (short_name : pystr) : failing (option GiftCandidate) :=
  match tonnel_floors !! short_name, portal_floors !! short_name with
  | Some price_tonnel, Some price_portal =>
      let direction :=
        if Qltb price_tonnel price_portal then
          Some (price_tonnel, price_portal, Tonnel, Portals,
                default true (clean_status !! short_name))
        else if Qltb price_portal price_tonnel then
          Some (price_portal, price_tonnel, Portals, Tonnel, true)
        else None in
      match direction with
      | None => Ok None
      | Some (price_buy_, price_sell_, market_buy_, market_sell_, clean_) =>
          let cost :=
            if decide (market_buy_ = Tonnel)
            then price_buy_ * (1 + COMMISSION_RATE_TONNEL)
            else price_buy_ * (1 + COMMISSION_RATE_PORTALS) in
          let proceeds :=
            if decide (market_sell_ = Tonnel)
            then price_sell_ * (1 - COMMISSION_RATE_TONNEL)
            else price_sell_ * (1 - COMMISSION_RATE_PORTALS) in
          let profit := proceeds - cost in
          if Qeq_bool cost 0 then Ok None
          else
            let* ratio := py_div profit cost in
            let profit_percent_ := ratio * 100 in
            if Qltb profit_percent_ min_profit_percent then Ok None
            else
              Ok (Some {|
                name := short_name;
                model := [];
                backdrop := PStr [];
                symbol := PStr [];
                price_buy := cost;
                price_sell := price_sell_;
                profit_absolute := profit;
                profit_percent := profit_percent_;
                market_buy := market_buy_;
                market_sell := market_sell_;
                clean := clean_ |})
      end
  | _, _ => Ok None
  end.

Definition calculate_flips (tonnel_gifts : list pyval)
    (portal_floors : gmap pystr Q) (min_profit_percent : Q)
  : failing (list GiftCandidate) :=
  let* clean_status := flips_clean_status tonnel_gifts in
  let* tonnel_floors := tonnel_floors_of tonnel_gifts in
  let* opportunities :=
    for_append
      (gift_flip clean_status tonnel_floors portal_floors min_profit_percent)
      (elements (dom tonnel_floors ∩ dom portal_floors)) in
  Ok (sort_by_profit opportunities).

(** ** The scan *)

(** Step 3 of [scan_and_find]: the distinct normalised (gift, model) pairs of
    the auctions, in order of first appearance. *)
Definition collect_model_keys (auctions : list pyval)
  : failing (list (pystr * pystr)) :=
  let* st :=
    for_fold
      (fun (st : list (pystr * pystr) * gset (pystr * pystr)) auction =>
         let '(model_keys, seen_keys) := st in
         match auction with
         | PDict a =>
             let gift := py_or (py_get a "gift_name") (py_get a "name") in
             let model_ := py_get a "model" in
             if negb (py_bool gift) || negb (py_bool model_) then Ok st
             else
               let* g_norm := normalise_name_dyn gift in
               let* m_norm := normalise_name_dyn model_ in
               let key := (g_norm, m_norm) in
               if decide (key ∈ seen_keys) then Ok st
               else Ok (model_keys ++ [key], {[key]} ∪ seen_keys)
         | _ => Ok st
         end)
      ([], ∅) auctions in
  Ok (fst st).

(** Step 5 of [scan_and_find]: a gift is clean as long as no sampled listing
    of its name carries a signature. *)
Definition scan_clean_status (tonnel_gifts : list pyval)
  : failing (gmap pystr bool) :=
  for_fold
    (fun (clean_status : gmap pystr bool) gift =>
       match gift with
       | PDict g =>
           let name_ := py_get g "name" in
           if negb (py_bool name_) then Ok clean_status
           else
             let* short_name := normalise_name_dyn name_ in
             let signature := py_get g "signature" in
             let current := default true (clean_status !! short_name) in
             Ok (<[short_name := current && negb (py_bool signature)]> clean_status)
       | _ => Ok clean_status
       end)
    ∅ tonnel_gifts.

Definition scan_and_find (tonnel_auth portals_api_id portals_api_hash : pystr)
    (min_price max_price min_profit_percent : Q)
  : failing (list GiftCandidate) :=
  let* portals_auth := update_auth portals_api_id portals_api_hash in
  let* auctions := fetch_tonnel_auctions tonnel_auth min_price max_price 5 in
  match auctions with
  | [] => Ok []
  | _ =>
      let* model_keys := collect_model_keys auctions in
      match model_keys with
      | [] => Ok []
      | _ =>
          let portals_prices :=
            fetch_portals_model_prices portals_auth model_keys
              min_price max_price in
          let* tonnel_gifts :=
            fetch_tonnel_gifts tonnel_auth min_price max_price 10 in
          let* clean_status := scan_clean_status tonnel_gifts in
          let* auction_flips :=
            calculate_auction_flips auctions portals_prices
              min_profit_percent clean_status in
          let* portals_flips :=
            calculate_portals_internal_flips portals_prices
              min_profit_percent in
          let all_flips := auction_flips ++ portals_flips in
          Ok (sort_by_profit all_flips)
      end
  end.

End Engine.

(** * The floor fetchers *)




(** [result[key] = price] *)
Definition keep_last {K} `{Countable K} (result : gmap K Q) (quote : K * Q)
  : gmap K Q :=
  <[fst quote := snd quote]> result.

Section Floors.

Variable str_lower : pystr -> pystr.
Variable str_to_float : pystr -> option Q.

(** [tonnelmp.filterStatsPretty(authData, proxies)]. *)
Variable filterStatsPretty : pystr -> failing pyval.

(** [portalsmp.giftsFloors(authData)]. *)
Variable giftsFloors : pystr -> failing pyval.

(** [portalsmp.search(sort="price_asc", offset=0, limit=1, gift_name, model,
    authData)]. *)
Variable search_cheapest : pystr -> pystr -> pystr -> failing pyval.

(** ** fetch_tonnel_model_floors *)



(** ** fetch_portals_model_floors *)




(** ** fetch_portals_floors *)

(** The dict format of [giftsFloors]: one entry, up to the update. *)
Definition floors_dict_quote (entry : pystr * pyval) : option (pystr * Q) :=
  let '(name_, price_str) := entry in
  match price_str with
  | PNone => None
  | _ =>
      match py_float str_to_float price_str with
      | Error _ => None
      | Ok price => Some (normalise_name str_lower name_, price)
      end
  end.

(** The list format of [giftsFloors]: one item, up to the update.  The price
    is parsed before the name is normalised. *)
Definition floors_list_quote (item : pyval) : failing (option (pystr * Q)) :=
  match item with
  | PDict d =>
      let name_ := py_get d "name" in
      let price_str := py_get d "price" in
      if negb (py_bool name_) then Ok None
      else
        match price_str with
        | PNone => Ok None
        | _ =>
            match py_float str_to_float price_str with
            | Error _ => Ok None
            | Ok price =>
                let* short := normalise_name_dyn str_lower name_ in
                Ok (Some (short, price))
            end
        end
  | _ => Ok None
  end.

Definition fetch_portals_floors (auth_data : pystr) : failing (gmap pystr Q) :=
  let* floors := giftsFloors auth_data in
  if negb (py_bool floors) || is_str floors then Ok ∅
  else
    match floors with
    | PDict d =>
        Ok (fold_left
              (fun result entry =>
                 match floors_dict_quote entry with
                 | Some quote => keep_last result quote
                 | None => result
                 end)
              d ∅)
    | _ =>
        let* items := py_iter floors in
        for_fold
          (fun (result : gmap pystr Q) item =>
             let* quote := floors_list_quote item in
             match quote with
             | Some q => Ok (keep_last result q)
             | None => Ok result
             end)
          ∅ items
    end.

(** ** fetch_tonnel_floors *)



End Floors.

(** * Sending the answer of a scan *)

Definition MAX_MESSAGE_LENGTH : nat := 4096.

(** The line feed. *)
Definition newline : N := 10%N.

(** [response.split("\n")] *)
Fixpoint split_lines (response : pystr) : list pystr :=
  match response with
  | [] => [[]]
  | c :: rest =>
      if (c =? newline)%N then [] :: split_lines rest
      else
        match split_lines rest with
        | line :: lines => (c :: line) :: lines
        | [] => [[c]]
        end
  end.

(** ["\n".join(lines)] *)
Fixpoint join_lines (lines : list pystr) : pystr :=
  match lines with
  | [] => []
  | [line] => line
  | line :: rest => line ++ newline :: join_lines rest
  end.

(** One turn of the chunking loop of [cmd_scan] on the messages sent so far
    and the buffer. *)
Definition chunk_turn (st : list pystr * pystr) (line : pystr)
  : list pystr * pystr :=
  let '(sent, buffer) := st in
  if (MAX_MESSAGE_LENGTH <? length buffer + length line + 1)%nat
  then (sent ++ [buffer], line)
  else (sent, match buffer with
              | [] => line
              | _ => buffer ++ newline :: line
              end).

(** The messages [cmd_scan] passes to [message.answer] for a response, in
    order. *)
Definition send_in_chunks (response : pystr) : list pystr :=
  if (length response <=? MAX_MESSAGE_LENGTH)%nat then [response]
  else
    let '(sent, buffer) := fold_left chunk_turn (split_lines response) ([], []) in
    match buffer with
    | [] => sent
    | _ => sent ++ [buffer]
    end.

(** * Vocabulary of the properties *)

(** Descending order of absolute profit. *)
Definition by_profit_desc (a b : GiftCandidate) : Prop :=
  profit_absolute b <= profit_absolute a.



(** The canonical name under which a sampled Tonnel listing counts: the
    listing is a dict whose [name] is a non-empty string. *)
Definition listing_name (str_lower : pystr -> pystr) (gift : pyval)
  : option pystr :=
  match gift with
  | PDict g =>
      match py_get g "name" with
      | PStr (c :: s) => Some (normalise_name str_lower (c :: s))
      | _ => None
      end
  | _ => None
  end.

(** The listing has no [signature] entry, or an empty one (a value Python
    takes for false: [None], the empty string, an empty collection, zero). *)
Definition signature_absent_or_empty (gift : pyval) : bool :=
  match gift with
  | PDict g =>
      match assoc_get (str "signature") g with
      | None => true
      | Some v => negb (py_bool v)
      end
  | _ => true
  end.

(** * Sample market data *)

(** The sample data hold prices as numbers, never as numeric strings, so the
    string case of [float] is not exercised. *)
Definition sample_float : pystr -> option Q := fun _ => None.

(** A plain Tonnel listing. *)
Definition sample_gift (gift_name : string) (price : Q) : pyval :=
  PDict [(str "name", PStr (str gift_name)); (str "price", PNum price)].

(** A plain Tonnel listing that carries a signature. *)
Definition signed_gift (gift_name : string) (price : Q) (signature : string)
  : pyval :=
  PDict [(str "name", PStr (str gift_name)); (str "price", PNum price);
         (str "signature", PStr (str signature))].

(** A Tonnel auction without bids: only its starting price. *)
Definition sample_auction (gift_name model_name : string) (price : Q) : pyval :=
  PDict [(str "gift_name", PStr (str gift_name));
         (str "model", PStr (str model_name));
         (str "price", PNum price)].

(** A Tonnel auction with a highest bid. *)
Definition bid_auction (gift_name model_name : string) (amount : Q) : pyval :=
  PDict [(str "gift_name", PStr (str gift_name));
         (str "model", PStr (str model_name));
         (str "highestBid", PDict [(str "amount", PNum amount)])].

(** A Portals listing. *)
Definition sample_listing (price : Q) : pyval := PDict [(str "price", PNum price)].

(** A market that answers page 1 with the list [first] and every later page
    with [later]. *)
Definition sample_pages {R} (first : list pyval) (later : failing pyval)
    (page : Z) (price_range : R) (auth_data : pystr) : failing pyval :=
  if (page =? 1)%Z then Ok (PList first) else later.

(** Portals with two listings of the model (plushpepe, gold), at [floor]
    and [second], and none of any other model. *)
Definition sample_search (floor second : Q) (gift_name model_name auth_data : pystr)
  : failing pyval :=
  if decide ((gift_name, model_name) = (str "plushpepe", str "gold"))
  then Ok (PList [sample_listing floor; sample_listing second])
  else Ok (PList []).

Definition sample_update_auth (api_id api_hash : pystr) : failing pystr :=
  Ok (str "token").

(** Thirty listings: a full page. *)
Definition full_page : list pyval := repeat (sample_gift "plushpepe" 10) 30.

(** * Vocabulary of the further properties *)


(** The records a page response adds to the result of [fetch_tonnel_gifts]:
    those of a list, the keys of a dict, none otherwise. *)
Definition gift_records (response : failing pyval) : list pyval :=
  match response with
  | Ok (PList l) => l
  | Ok (PDict d) => List.map (fun kv => PStr (fst kv)) d
  | _ => []
  end.

(** The page response is a number other than zero, or [True]. *)
Definition bare_scalar (response : failing pyval) : Prop :=
  match response with
  | Ok (PNum q) => ~ q == 0
  | Ok (PBool b) => b = true
  | _ => False
  end.

(** The page response ends [fetch_tonnel_gifts] without a record: the request
    raised, or returned a string. *)
Definition failed_gifts_page (response : failing pyval) : Prop :=
  match response with
  | Error _ => True
  | Ok v => is_str v = true
  end.

(** The page response ends [fetch_tonnel_auctions] without a record: the
    request raised, or returned something that is not a list. *)
Definition failed_auctions_page (response : failing pyval) : Prop :=
  match response with
  | Error _ => True
  | Ok v => is_list v = false
  end.

(** The entry [fetch_portals_model_prices] records for a key, given what
    [search] answered for it. *)
Definition quotes_of (str_to_float : pystr -> option Q) (min_price max_price : Q)
    (response : failing pyval) : option Q * option Q :=
  match response with
  | Error _ => (None, None)
  | Ok listings => floor_and_second str_to_float min_price max_price listings
  end.


(** The (gift, model) pair of a candidate. *)
Definition model_key_of (c : GiftCandidate) : pystr * pystr := (name c, model c).

(** The canonical name and the price under which a Tonnel listing enters the
    floors of [calculate_flips]: a dict with a non-empty string name and a
    price that [float] accepts. *)
Definition listing_quote (str_lower : pystr -> pystr)
    (str_to_float : pystr -> option Q) (gift : pyval) : option (pystr * Q) :=
  match listing_name str_lower gift, gift with
  | Some k, PDict g =>
      match py_get g "price" with
      | PNone => None
      | price_str =>
          match py_float str_to_float price_str with
          | Ok price => Some (k, price)
          | Error _ => None
          end
      end
  | _, _ => None
  end.

(** The first listing of the sample that bears the canonical name [k]. *)
Definition first_listing (str_lower : pystr -> pystr) (k : pystr)
    (tonnel_gifts : list pyval) : option pyval :=
  List.find (fun g => bool_decide (listing_name str_lower g = Some k))
    tonnel_gifts.

(** The normalised (gift, model) pair of an auction: the auction is a dict
    whose gift name and model are non-empty strings. *)
Definition auction_key (str_lower : pystr -> pystr) (auction : pyval)
  : option (pystr * pystr) :=
  match auction with
  | PDict a =>
      match py_or (py_get a "gift_name") (py_get a "name"), py_get a "model" with
      | PStr (c :: g), PStr (d :: m) =>
          Some (normalise_name str_lower (c :: g),
                normalise_name str_lower (d :: m))
      | _, _ => None
      end
  | _ => None
  end.

(** What the model strategy computes for a pair of floors. *)
Definition model_cost (price_tonnel : Q) : Q :=
  price_tonnel * (1 + COMMISSION_RATE_TONNEL).

Definition model_profit (price_tonnel price_portal : Q) : Q :=
  price_portal * (1 - COMMISSION_RATE_PORTALS) - model_cost price_tonnel
  - TRANSFER_FEE.

(** The price of the last quote for [key] in a list of quotes. *)
Definition latest {K} `{EqDecision K} (key : K) (quotes : list (K * Q))
  : option Q :=
  last (omap (fun quote => if decide (fst quote = key) then Some (snd quote)
                           else None) quotes).


(** The quote a turn of a loop settled on, when it did not raise. *)
Definition settled {A B} (quote : A -> failing (option B)) (x : A) : option B :=
  match quote x with
  | Ok (Some q) => Some q
  | _ => None
  end.



(** The quotes of a [giftsFloors] response, in the order of its entries. *)
Definition portal_floor_quotes (str_lower : pystr -> pystr)
    (str_to_float : pystr -> option Q) (floors : pyval) : list (pystr * Q) :=
  match floors with
  | PDict d => omap (floors_dict_quote str_lower str_to_float) d
  | PList items =>
      omap (settled (floors_list_quote str_lower str_to_float)) items
  | _ => []
  end.


(** A [giftsFloors] response in the list format: one gift under two
    spellings. *)
Definition sample_floors (auth_data : pystr) : failing pyval :=
  Ok (PList [sample_gift "Plush Pepe" 12; sample_gift "plush-pepe" 15]).

(** A response of three lines of 2000 characters each. *)
Definition long_response : pystr :=
  repeat 97%N 2000 ++ newline :: repeat 98%N 2000 ++ newline :: repeat 99%N 2000.



(** * Properties *)

(** ** Exceptions and loops *)

Lemma bind_Ok {A B} (m : failing A) (k : A -> failing B) (b : B) :
  bind m k = Ok b <-> exists a, m = Ok a /\ k a = Ok b.
Proof.
  destruct m as [a|e]; simpl.
  - split; [eauto|]. intros (a' & Ha & Hk). now inversion Ha; subst.
  - split; [discriminate|]. intros (a' & Ha & _). discriminate.
Qed.

Tactic Notation "inv_bind" hyp(H) "as" ident(a) ident(Ha) :=
  apply bind_Ok in H as (a & Ha & H).

Lemma for_append_Ok {A B} (body : A -> failing (option B)) (l : list A)
    (r : list B) :
  for_append body l = Ok r ->
  forall b, b ∈ r <-> exists a, a ∈ l /\ body a = Ok (Some b).
Proof.
  revert r. induction l as [|a l IH]; simpl; intros r H b.
  - inversion H; subst. split.
    + intros Hb. inversion Hb.
    + intros (a & Ha & _). inversion Ha.
  - inv_bind H as o Ho. inv_bind H as r' Hr'. inversion H; subst; clear H.
    specialize (IH _ Hr' b).
    split.
    + intros Hb. destruct o as [b0|].
      * apply elem_of_cons in Hb as [->|Hb].
        -- exists a. split; [left|assumption].
        -- apply IH in Hb as (a' & Ha' & Hb'). exists a'. split; [now right|assumption].
      * apply IH in Hb as (a' & Ha' & Hb'). exists a'. split; [now right|assumption].
    + intros (a' & Ha' & Hb').
      apply elem_of_cons in Ha' as [->|Ha'].
      * rewrite Hb' in Ho. inversion Ho; subst. left.
      * assert (b ∈ r') by (apply IH; eauto).
        destruct o; [now right|assumption].
Qed.

(** A loop whose body never raises returns. *)
Lemma for_append_total {A B} (body : A -> failing (option B)) (l : list A) :
  (forall a, a ∈ l -> exists o, body a = Ok o) ->
  exists r, for_append body l = Ok r.
Proof.
  induction l as [|a l IH]; simpl; intros H; [eauto|].
  destruct (H a) as [o Ho]; [left|]. rewrite Ho. simpl.
  destruct IH as [r Hr]; [intros a' Ha'; apply H; now right|].
  rewrite Hr. simpl. eauto.
Qed.

(** An invariant of the accumulator carries through a [for] loop. *)
Lemma for_fold_inv {A S} (P : list A -> S -> Prop)
    (body : S -> A -> failing S) (l : list A) (s0 s : S) :
  P [] s0 ->
  (forall done a s s', P done s -> body s a = Ok s' -> P (done ++ [a]) s') ->
  for_fold body s0 l = Ok s -> P l s.
Proof.
  intros H0 Hstep.
  enough (G : forall done s0, P done s0 -> for_fold body s0 l = Ok s -> P (done ++ l) s)
    by (apply (G [] s0 H0)).
  induction l as [|a l IH]; simpl; intros done s1 HP H.
  - inversion H; subst. now rewrite app_nil_r.
  - inv_bind H as s' Hs'.
    replace (done ++ a :: l) with ((done ++ [a]) ++ l) by now rewrite <- app_assoc.
    eapply IH; [|exact H]. eapply Hstep; eauto.
Qed.

(** ** Numbers *)

Lemma Qltb_lt (x y : Q) : Qltb x y = true <-> x < y.
Proof. unfold Qltb, Qlt. apply Z.ltb_lt. Qed.

Lemma Qltb_ge (x y : Q) : Qltb x y = false <-> y <= x.
Proof. unfold Qltb, Qle. apply Z.ltb_ge. Qed.

Lemma Qle_bool_gt (x y : Q) : Qle_bool x y = false <-> y < x.
Proof.
  split.
  - intros H. apply Qnot_le_lt. intros Hle.
    apply Qle_bool_iff in Hle. congruence.
  - intros H. destruct (Qle_bool x y) eqn:E; [|reflexivity].
    apply Qle_bool_iff in E. lra.
Qed.

Lemma py_div_Ok (a b q : Q) :
  py_div a b = Ok q -> ~ b == 0 /\ q = a / b.
Proof.
  unfold py_div. destruct (Qeq_bool b 0) eqn:E; [discriminate|].
  intros H. inversion H; subst. split; [|reflexivity].
  now apply Qeq_bool_neq.
Qed.

Lemma py_div_nonzero (a b : Q) : ~ b == 0 -> py_div a b = Ok (a / b).
Proof.
  intros H. unfold py_div. destruct (Qeq_bool b 0) eqn:E; [|reflexivity].
  apply Qeq_bool_iff in E. contradiction.
Qed.

(** ** The stable descending sort *)

Lemma insert_desc_perm (c : GiftCandidate) (l : list GiftCandidate) :
  insert_desc c l ≡ₚ c :: l.
Proof.
  induction l as [|d l IH]; simpl; [reflexivity|].
  destruct (Qltb _ _); [|reflexivity].
  rewrite IH. apply Permutation_swap.
Qed.

Lemma sort_by_profit_perm (l : list GiftCandidate) : sort_by_profit l ≡ₚ l.
Proof.
  unfold sort_by_profit. induction l as [|c l IH]; simpl; [reflexivity|].
  rewrite insert_desc_perm. now rewrite IH.
Qed.

Lemma insert_desc_sorted (c : GiftCandidate) (l : list GiftCandidate) :
  StronglySorted by_profit_desc l -> StronglySorted by_profit_desc (insert_desc c l).
Proof.
  induction 1 as [|d l Hs IH Hd]; simpl.
  - repeat constructor.
  - destruct (Qltb _ _) eqn:E.
    + constructor; [exact IH|].
      apply Qltb_lt in E.
      rewrite insert_desc_perm. constructor; [|exact Hd].
      unfold by_profit_desc. lra.
    + apply Qltb_ge in E.
      constructor; [now constructor|].
      constructor; [exact E|].
      eapply Forall_impl; [exact Hd|].
      unfold by_profit_desc. intros x Hx. simpl in Hx. lra.
Qed.

Lemma sort_by_profit_sorted (l : list GiftCandidate) :
  StronglySorted by_profit_desc (sort_by_profit l).
Proof.
  unfold sort_by_profit. induction l as [|c l IH]; simpl; [constructor|].
  now apply insert_desc_sorted.
Qed.



Lemma elem_of_sort_by_profit (c : GiftCandidate) (l : list GiftCandidate) :
  c ∈ sort_by_profit l <-> c ∈ l.
Proof. now rewrite sort_by_profit_perm. Qed.

(** ** normalise_name *)

Lemma re_sub_noise_clean (s : pystr) :
  Forall (fun c => name_noise c = false) (re_sub_noise s).
Proof.
  unfold re_sub_noise. induction s as [|c s IH]; simpl; [constructor|].
  destruct (name_noise c) eqn:E; simpl; [exact IH|].
  constructor; [exact E|exact IH].
Qed.

Lemma re_sub_noise_id (s : pystr) :
  Forall (fun c => name_noise c = false) s -> re_sub_noise s = s.
Proof.
  unfold re_sub_noise. induction 1 as [|c s Hc _ IH]; simpl; [reflexivity|].
  rewrite Hc. simpl. now rewrite IH.
Qed.

Lemma ascii_lower_char_idem (c : N) :
  ascii_lower_char (ascii_lower_char c) = ascii_lower_char c.
Proof.
  unfold ascii_lower_char.
  destruct ((65 <=? c) && (c <=? 90))%N eqn:E; [|now rewrite E].
  apply andb_true_iff in E as [H1 H2].
  apply N.leb_le in H1. apply N.leb_le in H2.
  replace ((65 <=? c + 32) && (c + 32 <=? 90))%N with false; [reflexivity|].
  symmetry. apply andb_false_iff. right. apply N.leb_gt. lia.
Qed.

Lemma ascii_lower_idem (s : pystr) : ascii_lower (ascii_lower s) = ascii_lower s.
Proof.
  unfold ascii_lower. rewrite List.map_map.
  apply List.map_ext. intros c. apply ascii_lower_char_idem.
Qed.

Lemma ascii_lower_char_noise (c : N) :
  name_noise c = false -> name_noise (ascii_lower_char c) = false.
Proof.
  unfold ascii_lower_char.
  destruct ((65 <=? c) && (c <=? 90))%N eqn:E; [|tauto].
  intros _. apply andb_true_iff in E as [H1 H2].
  apply N.leb_le in H1. apply N.leb_le in H2.
  unfold name_noise, is_space.
  repeat match goal with
  | |- context [(?a <=? ?b)%N] => destruct (N.leb_spec a b); try lia
  | |- context [(?a =? ?b)%N] => destruct (N.eqb_spec a b); try lia
  end; reflexivity.
Qed.

Lemma ascii_lower_noise (s : pystr) :
  Forall (fun c => name_noise c = false) s ->
  Forall (fun c => name_noise c = false) (ascii_lower s).
Proof.
  unfold ascii_lower.
  induction 1; simpl; constructor; auto using ascii_lower_char_noise.
Qed.

(** C6. [normalise_name] is idempotent on every string, and the three
    spellings of Plush Pepe (with a space, with a hyphen, in one word) have
    one and the same canonical form.  [str.lower] is a parameter; what is
    used of it is that lowering twice is lowering once, that it introduces
    none of the characters the regular expression removes, and that on ASCII
    text it lowers the letters A-Z. *)
Theorem normalise_name_idempotent
  (str_lower : pystr -> pystr)
  (lower_idem : forall s, str_lower (str_lower s) = str_lower s)
  (lower_noise : forall s, Forall (fun c => name_noise c = false) s ->
                           Forall (fun c => name_noise c = false) (str_lower s))
  (lower_ascii : forall s, is_ascii s -> str_lower s = ascii_lower s) :
  (forall x, normalise_name str_lower (normalise_name str_lower x)
             = normalise_name str_lower x)
  /\ normalise_name str_lower (str "Plush Pepe")
     = normalise_name str_lower (str "plush-pepe")
  /\ normalise_name str_lower (str "plush-pepe")
     = normalise_name str_lower (str "PlushPepe")
  /\ normalise_name str_lower (str "PlushPepe") = str "plushpepe".
Proof.
  assert (Hex : forall s, is_ascii (re_sub_noise (str s)) ->
                  normalise_name str_lower (str s)
                  = ascii_lower (re_sub_noise (str s))).
  { intros s Hs. unfold normalise_name. now apply lower_ascii. }
  split; [|repeat split].
  - intros x. unfold normalise_name.
    rewrite (re_sub_noise_id (str_lower (re_sub_noise x))).
    + apply lower_idem.
    + apply lower_noise, re_sub_noise_clean.
  - rewrite !Hex; [reflexivity| |];
      vm_compute; repeat constructor.
  - rewrite !Hex; [reflexivity| |];
      vm_compute; repeat constructor.
  - rewrite Hex; [reflexivity|].
    vm_compute; repeat constructor.
Qed.

(** ** Pagination *)

Section Paginate.

Variable body : Z -> list pyval -> turn.
Variable max_pages : Z.

(** The bound on the number of turns is never what ends the loop. *)
Lemma paginate_fuel (fuel1 fuel2 : nat) (page : Z) (acc : list pyval) :
  (max_pages + 1 - page <= Z.of_nat fuel1)%Z ->
  (max_pages + 1 - page <= Z.of_nat fuel2)%Z ->
  paginate body max_pages fuel1 page acc = paginate body max_pages fuel2 page acc.
Proof.
  revert fuel2 page acc.
  induction fuel1 as [|fuel1 IH]; intros [|fuel2] page acc H1 H2; simpl;
    try reflexivity.
  - destruct (Z.leb_spec page max_pages); [lia|reflexivity].
  - destruct (Z.leb_spec page max_pages); [lia|reflexivity].
  - destruct (Z.leb_spec page max_pages); [|reflexivity].
    destruct (body page acc) as [out|acc']; [reflexivity|].
    rewrite (IH fuel2 (page + 1)%Z acc') by lia. reflexivity.
Qed.

Lemma paginate_first (fuel : nat) (page : Z) (acc : list pyval) :
  (page <= max_pages)%Z ->
  exists rest, fst (paginate body max_pages (S fuel) page acc) = page :: rest.
Proof.
  intros H. simpl. destruct (Z.leb_spec page max_pages); [|lia].
  destruct (body page acc) as [out|acc']; [now exists []|].
  destruct (paginate body max_pages fuel (page + 1) acc') as [pages out].
  now exists pages.
Qed.

Lemma paginate_pages (fuel : nat) (page : Z) (acc : list pyval) :
  (max_pages + 1 - page <= Z.of_nat fuel)%Z ->
  let pages := fst (paginate body max_pages fuel page acc) in
  pages = seqZ page (Z.of_nat (length pages))
  /\ (Z.of_nat (length pages) <= Z.max 0 (max_pages + 1 - page))%Z
  /\ (forall p, p ∈ pages -> (forall a, exists o, body p a = Break o) ->
        p = (page + Z.of_nat (length pages) - 1)%Z)
  /\ (forall p, p ∈ pages -> (forall a, exists a', body p a = Next a') ->
        (p < max_pages)%Z -> (p + 1)%Z ∈ pages).
Proof.
  revert page acc. induction fuel as [|fuel IH]; intros page acc Hfuel.
  - simpl. repeat split; try lia; intros p Hp; inversion Hp.
  - simpl. destruct (Z.leb_spec page max_pages) as [Hle|Hgt].
    2:{ simpl. repeat split; try lia; intros p Hp; inversion Hp. }
    destruct (body page acc) as [out|acc'] eqn:Hbody.
    + simpl. repeat split; try lia.
      * intros p Hp _. apply list_elem_of_singleton in Hp. lia.
      * intros p Hp Hnext _. apply list_elem_of_singleton in Hp. subst p.
        destruct (Hnext acc) as [a' Ha']. congruence.
    + assert (Hfuel' : (max_pages + 1 - (page + 1) <= Z.of_nat fuel)%Z) by lia.
      specialize (IH (page + 1)%Z acc' Hfuel').
      assert (Hhead : (page + 1 <= max_pages)%Z -> exists rest,
                 fst (paginate body max_pages fuel (page + 1) acc')
                 = (page + 1)%Z :: rest).
      { intros Hlt. destruct fuel as [|fuel']; [lia|].
        now apply paginate_first. }
      destruct (paginate body max_pages fuel (page + 1) acc') as [pages out].
      simpl in *. destruct IH as (Hseq & Hlen & Hstop & Hgo).
      repeat split.
      * rewrite (seqZ_cons page) by lia. f_equal.
        replace (Z.pred (Z.of_nat (S (length pages))))
          with (Z.of_nat (length pages)) by lia.
        exact Hseq.
      * lia.
      * intros p Hp Hbreak. apply elem_of_cons in Hp as [->|Hp].
        -- destruct (Hbreak acc) as [o Ho]. congruence.
        -- rewrite (Hstop p Hp Hbreak). lia.
      * intros p Hp Hnext Hlt. apply elem_of_cons in Hp as [->|Hp].
        -- destruct (Hhead ltac:(lia)) as [rest Hrest]. subst pages.
           right. left.
        -- right. now apply Hgo.
Qed.

(** A loop whose turns never raise returns a list. *)
Lemma paginate_returns (fuel : nat) (page : Z) (acc : list pyval) :
  (forall p a e, body p a <> Break (Error e)) ->
  exists l, snd (paginate body max_pages fuel page acc) = Ok l.
Proof.
  intros Hbody. revert page acc.
  induction fuel as [|fuel IH]; intros page acc; simpl; [eauto|].
  destruct (page <=? max_pages)%Z; [|simpl; eauto].
  destruct (body page acc) as [[l|e]|acc'] eqn:Hturn; simpl; [eauto| |].
  - exfalso. apply (Hbody page acc e Hturn).
  - specialize (IH (page + 1)%Z acc').
    destruct (paginate body max_pages fuel (page + 1) acc') as [pages out].
    exact IH.
Qed.

End Paginate.

Section Fetch.

Variable getGifts : Z -> Q * Q -> pystr -> failing pyval.
Variable getAuctions : Z -> Z * Z -> pystr -> failing pyval.
Variable auth_data : pystr.






(** [fetch_tonnel_auctions] returns whatever happens to a page: it never
    raises. *)
Lemma fetch_tonnel_auctions_returns (min_price max_price : Q) (max_pages : Z) :
  exists auctions,
    fetch_tonnel_auctions getAuctions auth_data min_price max_price max_pages
    = Ok auctions.
Proof.
  unfold fetch_tonnel_auctions, fetch_tonnel_auctions_paged.
  apply paginate_returns. intros p acc e.
  unfold auctions_turn.
  destruct (getAuctions _ _ _) as [v|e']; [|discriminate].
  destruct v as [|b|q|s|l|d]; simpl; rewrite ?orb_true_r; try discriminate.
  destruct l as [|x l]; simpl; [discriminate|].
  destruct (S (length l) <? 30)%nat; discriminate.
Qed.

End Fetch.

(** ** The four strategies, one turn of their loops at a time *)

Lemma model_flip_returns (tf pf : gmap (pystr * pystr) Q) (min_pct : Q)
    (cs : option (gmap pystr bool)) (key : pystr * pystr) :
  exists o, model_flip tf pf min_pct cs key = Ok o.
Proof.
  unfold model_flip. destruct key as [g m].
  destruct (tf !! (g, m)) as [pt|]; [|eauto].
  destruct (pf !! (g, m)) as [pp|]; [|eauto].
  destruct (Qltb pt pp); [|destruct (Qltb pp pt); eauto].
  cbv zeta. destruct (Qle_bool _ 0) eqn:Ec; [eauto|].
  apply Qle_bool_gt in Ec.
  rewrite py_div_nonzero by lra. simpl.
  destruct (_ || _); eauto.
Qed.

Lemma model_flip_Some (tf pf : gmap (pystr * pystr) Q) (min_pct : Q)
    (cs : option (gmap pystr bool)) (key : pystr * pystr) (c : GiftCandidate) :
  model_flip tf pf min_pct cs key = Ok (Some c) ->
  exists pt pp,
    tf !! key = Some pt /\ pf !! key = Some pp /\ pt < pp
    /\ (name c, model c) = key
    /\ market_buy c = Tonnel /\ market_sell c = Portals
    /\ price_buy c = pt * (1 + COMMISSION_RATE_TONNEL)
    /\ price_sell c = pp.
Proof.
  unfold model_flip. destruct key as [g m].
  destruct (tf !! (g, m)) as [pt|]; [|discriminate].
  destruct (pf !! (g, m)) as [pp|]; [|discriminate].
  destruct (Qltb pt pp) eqn:Elt; [|destruct (Qltb pp pt); discriminate].
  apply Qltb_lt in Elt.
  cbv zeta. destruct (Qle_bool _ 0); [discriminate|].
  intros H. inv_bind H as ratio Hr.
  destruct (_ || _); [discriminate|].
  inversion H; subst; clear H. simpl.
  exists pt, pp. repeat split; auto.
Qed.

Lemma gift_flip_Some (cs : gmap pystr bool) (tf pf : gmap pystr Q)
    (min_pct : Q) (k : pystr) (c : GiftCandidate) :
  gift_flip cs tf pf min_pct k = Ok (Some c) ->
  exists pt pp,
    tf !! k = Some pt /\ pf !! k = Some pp /\ name c = k
    /\ ((pt < pp /\ market_buy c = Tonnel /\ market_sell c = Portals
         /\ price_buy c = pt * (1 + COMMISSION_RATE_TONNEL)
         /\ price_sell c = pp
         /\ profit_absolute c
            = pp * (1 - COMMISSION_RATE_PORTALS)
              - pt * (1 + COMMISSION_RATE_TONNEL))
        \/ (pp < pt /\ market_buy c = Portals /\ market_sell c = Tonnel
            /\ price_buy c = pp * (1 + COMMISSION_RATE_PORTALS)
            /\ price_sell c = pt
            /\ profit_absolute c
               = pt * (1 - COMMISSION_RATE_TONNEL)
                 - pp * (1 + COMMISSION_RATE_PORTALS)))
    /\ profit_percent c = profit_absolute c / price_buy c * 100
    /\ ~ price_buy c == 0
    /\ min_pct <= profit_percent c.
Proof.
  unfold gift_flip.
  destruct (tf !! k) as [pt|]; [|discriminate].
  destruct (pf !! k) as [pp|]; [|discriminate].
  destruct (Qltb pt pp) eqn:Elt.
  - apply Qltb_lt in Elt. cbv beta iota zeta.
    destruct (decide (Tonnel = Tonnel)); [|congruence].
    destruct (decide (Portals = Tonnel)); [discriminate|].
    destruct (Qeq_bool _ 0) eqn:Ez; [discriminate|].
    apply Qeq_bool_neq in Ez.
    intros H. inv_bind H as ratio Hr. apply py_div_Ok in Hr as [_ ->].
    destruct (Qltb _ min_pct) eqn:Em; [discriminate|].
    apply Qltb_ge in Em.
    inversion H; subst; clear H. cbn [name market_buy market_sell price_buy
      price_sell profit_absolute profit_percent].
    exists pt, pp. do 3 (split; [reflexivity|]).
    split; [left; repeat split; auto|]. repeat split; auto.
  - destruct (Qltb pp pt) eqn:Egt; [|discriminate].
    apply Qltb_lt in Egt. cbv beta iota zeta.
    destruct (decide (Tonnel = Tonnel)); [|congruence].
    destruct (decide (Portals = Tonnel)); [discriminate|].
    destruct (Qeq_bool _ 0) eqn:Ez; [discriminate|].
    apply Qeq_bool_neq in Ez.
    intros H. inv_bind H as ratio Hr. apply py_div_Ok in Hr as [_ ->].
    destruct (Qltb _ min_pct) eqn:Em; [discriminate|].
    apply Qltb_ge in Em.
    inversion H; subst; clear H. cbn [name market_buy market_sell price_buy
      price_sell profit_absolute profit_percent].
    exists pt, pp. do 3 (split; [reflexivity|]).
    split; [right; repeat split; auto|]. repeat split; auto.
Qed.

Section Strategies.

Variable str_lower : pystr -> pystr.
Variable str_to_float : pystr -> option Q.

(** What [calculate_flips] returns, read off its three loops. *)
Lemma calculate_flips_Ok (tonnel_gifts : list pyval) (portal_floors : gmap pystr Q)
    (min_pct : Q) (r : list GiftCandidate) :
  calculate_flips str_lower str_to_float tonnel_gifts portal_floors min_pct = Ok r ->
  exists cs tf,
    flips_clean_status str_lower tonnel_gifts = Ok cs
    /\ tonnel_floors_of str_lower str_to_float tonnel_gifts = Ok tf
    /\ forall c, c ∈ r ->
         gift_flip cs tf portal_floors min_pct (name c) = Ok (Some c).
Proof.
  unfold calculate_flips. intros H.
  inv_bind H as cs Hcs. inv_bind H as tf Htf. inv_bind H as opp Hopp.
  inversion H; subst; clear H.
  exists cs, tf. repeat split; auto.
  intros c Hc. apply (proj1 (elem_of_sort_by_profit _ _)) in Hc.
  apply (for_append_Ok _ _ _ Hopp) in Hc as (k & _ & Hk).
  pose proof (gift_flip_Some _ _ _ _ _ _ Hk) as (pt & pp & _ & _ & Hn & _).
  now rewrite Hn.
Qed.

(** C4. [calculate_model_flips] always returns, and every candidate it
    returns buys on Tonnel and sells on Portals a (gift, model) pair whose
    Tonnel floor is strictly below its Portals floor; a pair whose Portals
    floor is lower than or equal to its Tonnel floor yields no candidate. *)
Theorem calculate_model_flips_direction
    (tonnel_model_floors portals_model_floors : gmap (pystr * pystr) Q)
    (min_profit_percent : Q) (clean_status : option (gmap pystr bool)) :
  exists r,
    calculate_model_flips tonnel_model_floors portals_model_floors
      min_profit_percent clean_status = Ok r
    /\ (forall c, c ∈ r ->
          exists price_tonnel price_portal,
            tonnel_model_floors !! (name c, model c) = Some price_tonnel
            /\ portals_model_floors !! (name c, model c) = Some price_portal
            /\ price_tonnel < price_portal
            /\ market_buy c = Tonnel /\ market_sell c = Portals
            /\ price_buy c = price_tonnel * (1 + COMMISSION_RATE_TONNEL)
            /\ price_sell c = price_portal)
    /\ (forall key price_tonnel price_portal,
          tonnel_model_floors !! key = Some price_tonnel ->
          portals_model_floors !! key = Some price_portal ->
          price_portal <= price_tonnel ->
          forall c, c ∈ r -> (name c, model c) <> key).
Proof.
  unfold calculate_model_flips.
  destruct (for_append_total
              (model_flip tonnel_model_floors portals_model_floors
                 min_profit_percent clean_status)
              (elements (dom tonnel_model_floors ∩ dom portals_model_floors)))
    as [opp Hopp].
  { intros key _. apply model_flip_returns. }
  rewrite Hopp. simpl. eexists. split; [reflexivity|].
  assert (Hall : forall c, c ∈ sort_by_profit opp ->
            exists pt pp,
              tonnel_model_floors !! (name c, model c) = Some pt
              /\ portals_model_floors !! (name c, model c) = Some pp
              /\ pt < pp
              /\ market_buy c = Tonnel /\ market_sell c = Portals
              /\ price_buy c = pt * (1 + COMMISSION_RATE_TONNEL)
              /\ price_sell c = pp).
  { intros c Hc. apply (proj1 (elem_of_sort_by_profit _ _)) in Hc.
    apply (for_append_Ok _ _ _ Hopp) in Hc as (key & _ & Hk).
    apply model_flip_Some in Hk
      as (pt & pp & Ht & Hp & Hlt & Hkey & Hb & Hs & Hpb & Hps).
    rewrite Hkey. exists pt, pp. repeat split; auto. }
  split; [exact Hall|].
  intros key pt pp Ht Hp Hle c Hc Hkey.
  destruct (Hall c Hc) as (pt' & pp' & Ht' & Hp' & Hlt & _).
  rewrite Hkey in Ht', Hp'. rewrite Ht in Ht'. rewrite Hp in Hp'.
  inversion Ht'; inversion Hp'; subst. lra.
Qed.

(** C5. Every candidate of [calculate_flips] stands for a key present in both
    floor maps whose two prices differ, bought at the lower of the two
    prices (plus the commission of that market) and sold at the higher; a
    key whose two prices are equal yields no candidate. *)
Theorem calculate_flips_direction (tonnel_gifts : list pyval)
    (portal_floors : gmap pystr Q) (min_profit_percent : Q)
    (r : list GiftCandidate) :
  calculate_flips str_lower str_to_float tonnel_gifts portal_floors
    min_profit_percent = Ok r ->
  exists tonnel_floors,
    tonnel_floors_of str_lower str_to_float tonnel_gifts = Ok tonnel_floors
    /\ (forall c, c ∈ r ->
          exists price_tonnel price_portal,
            tonnel_floors !! name c = Some price_tonnel
            /\ portal_floors !! name c = Some price_portal
            /\ ~ price_tonnel == price_portal
            /\ ((price_tonnel < price_portal
                 /\ market_buy c = Tonnel /\ market_sell c = Portals
                 /\ price_buy c = price_tonnel * (1 + COMMISSION_RATE_TONNEL)
                 /\ price_sell c = price_portal)
                \/ (price_portal < price_tonnel
                    /\ market_buy c = Portals /\ market_sell c = Tonnel
                    /\ price_buy c = price_portal * (1 + COMMISSION_RATE_PORTALS)
                    /\ price_sell c = price_tonnel)))
    /\ (forall k price_tonnel price_portal,
          tonnel_floors !! k = Some price_tonnel ->
          portal_floors !! k = Some price_portal ->
          price_tonnel == price_portal ->
          forall c, c ∈ r -> name c <> k).
Proof.
  intros H. apply calculate_flips_Ok in H as (cs & tf & _ & Htf & Hr).
  exists tf. split; [exact Htf|].
  assert (Hall : forall c, c ∈ r ->
            exists pt pp,
              tf !! name c = Some pt /\ portal_floors !! name c = Some pp
              /\ ~ pt == pp
              /\ ((pt < pp /\ market_buy c = Tonnel /\ market_sell c = Portals
                   /\ price_buy c = pt * (1 + COMMISSION_RATE_TONNEL)
                   /\ price_sell c = pp)
                  \/ (pp < pt /\ market_buy c = Portals /\ market_sell c = Tonnel
                      /\ price_buy c = pp * (1 + COMMISSION_RATE_PORTALS)
                      /\ price_sell c = pt))).
  { intros c Hc. apply Hr in Hc. apply gift_flip_Some in Hc
      as (pt & pp & Ht & Hp & _ & Hdir & _).
    exists pt, pp. repeat split; auto.
    - destruct Hdir as [(Hlt & _)|(Hlt & _)]; lra.
    - destruct Hdir as [(Hlt & Hb & Hs & Hpb & Hps & _)
                       |(Hlt & Hb & Hs & Hpb & Hps & _)]; [left|right];
        repeat split; auto. }
  split; [exact Hall|].
  intros k pt pp Ht Hp Heq c Hc Hk.
  destruct (Hall c Hc) as (pt' & pp' & Ht' & Hp' & Hne & _).
  rewrite Hk in Ht', Hp'. rewrite Ht in Ht'. rewrite Hp in Hp'.
  inversion Ht'; inversion Hp'; subst. contradiction.
Qed.

(** C1 (amended). For every candidate of [calculate_flips] the absolute
    profit is the sell price less the commission of the selling market, minus
    the buy price plus the commission of the buying market; the two markets
    always differ and no transfer fee is subtracted.  The percentage is 100
    times the profit over the fee-inclusive cost and is at least the
    threshold. *)
Theorem calculate_flips_profit (tonnel_gifts : list pyval)
    (portal_floors : gmap pystr Q) (min_profit_percent : Q)
    (r : list GiftCandidate) :
  calculate_flips str_lower str_to_float tonnel_gifts portal_floors
    min_profit_percent = Ok r ->
  exists tonnel_floors,
    tonnel_floors_of str_lower str_to_float tonnel_gifts = Ok tonnel_floors
    /\ forall c, c ∈ r ->
         exists buy_price sell_price,
           ((market_buy c = Tonnel /\ market_sell c = Portals
             /\ tonnel_floors !! name c = Some buy_price
             /\ portal_floors !! name c = Some sell_price)
            \/ (market_buy c = Portals /\ market_sell c = Tonnel
                /\ portal_floors !! name c = Some buy_price
                /\ tonnel_floors !! name c = Some sell_price))
           /\ market_buy c <> market_sell c
           /\ price_buy c = buy_price * (1 + commission (market_buy c))
           /\ price_sell c = sell_price
           /\ profit_absolute c
              = sell_price * (1 - commission (market_sell c))
                - buy_price * (1 + commission (market_buy c))
           /\ profit_percent c = profit_absolute c / price_buy c * 100
           /\ min_profit_percent <= profit_percent c.
Proof.
  intros H. apply calculate_flips_Ok in H as (cs & tf & _ & Htf & Hr).
  exists tf. split; [exact Htf|].
  intros c Hc. apply Hr in Hc. apply gift_flip_Some in Hc
    as (pt & pp & Ht & Hp & _ & Hdir & Hpct & _ & Hmin).
  destruct Hdir as [(Hlt & Hb & Hs & Hpb & Hps & Hpa)
                   |(Hlt & Hb & Hs & Hpb & Hps & Hpa)].
  - exists pt, pp. rewrite Hb, Hs. simpl commission.
    split; [left; auto|]. repeat split; auto.
  - exists pp, pt. rewrite Hb, Hs. simpl commission.
    split; [right; auto|]. repeat split; auto.
Qed.

End Strategies.

(** ** Auctions, Portals spreads and the scan *)


Section Scan.

Variable str_lower : pystr -> pystr.
Variable str_to_float : pystr -> option Q.
Variable getGifts : Z -> Q * Q -> pystr -> failing pyval.
Variable getAuctions : Z -> Z * Z -> pystr -> failing pyval.
Variable search : pystr -> pystr -> pystr -> failing pyval.
Variable update_auth : pystr -> pystr -> failing pystr.





End Scan.

(** ** The engine on sample data *)

(** C1, as stated, fails: with Tonnel at 10 and Portals at 12 the candidate
    of [calculate_flips] crosses the markets, yet its profit is 0.8 and not
    11.4 - 10.6 - 0.15 = 0.65, its percentage is above 7, and it is kept at
    a threshold of 7. *)
Lemma calculate_flips_without_transfer_fee :
  exists c,
    calculate_flips ascii_lower sample_float [sample_gift "plushpepe" 10]
      {[ str "plushpepe" := 12 ]} 7 = Ok [c]
    /\ market_buy c <> market_sell c
    /\ profit_absolute c == 0.8
    /\ ~ profit_absolute c
         == 12 * (1 - COMMISSION_RATE_PORTALS)
            - 10 * (1 + COMMISSION_RATE_TONNEL) - TRANSFER_FEE
    /\ ~ profit_absolute c == 0.65
    /\ 7 < profit_percent c.
Proof.
  eexists. split; [vm_compute; reflexivity|].
  cbn [market_buy market_sell profit_absolute profit_percent].
  split; [discriminate|]. split; [reflexivity|].
  split; [intros H; vm_compute in H; discriminate|].
  split; [intros H; vm_compute in H; discriminate|].
  reflexivity.
Qed.

(** The sample of C1 under the amended formula: kept at 5 and at 7, dropped
    at 8. *)
Lemma calculate_flips_profit_witness :
  exists r,
    calculate_flips ascii_lower sample_float [sample_gift "plushpepe" 10]
      {[ str "plushpepe" := 12 ]} 7 = Ok r
    /\ length r = 1%nat
    /\ exists tonnel_floors,
         tonnel_floors_of ascii_lower sample_float [sample_gift "plushpepe" 10]
         = Ok tonnel_floors
         /\ forall c, c ∈ r ->
              exists buy_price sell_price,
                ((market_buy c = Tonnel /\ market_sell c = Portals
                  /\ tonnel_floors !! name c = Some buy_price
                  /\ ({[ str "plushpepe" := 12 ]} : gmap pystr Q) !! name c
                     = Some sell_price)
                 \/ (market_buy c = Portals /\ market_sell c = Tonnel
                     /\ ({[ str "plushpepe" := 12 ]} : gmap pystr Q) !! name c
                        = Some buy_price
                     /\ tonnel_floors !! name c = Some sell_price))
                /\ market_buy c <> market_sell c
                /\ price_buy c = buy_price * (1 + commission (market_buy c))
                /\ price_sell c = sell_price
                /\ profit_absolute c
                   = sell_price * (1 - commission (market_sell c))
                     - buy_price * (1 + commission (market_buy c))
                /\ profit_percent c = profit_absolute c / price_buy c * 100
                /\ 7 <= profit_percent c.
Proof.
  eexists. split; [vm_compute; reflexivity|]. split; [reflexivity|].
  apply (calculate_flips_profit ascii_lower sample_float
           [sample_gift "plushpepe" 10] {[ str "plushpepe" := 12 ]} 7).
  vm_compute. reflexivity.
Defined.

(** The same sample at the thresholds 5 and 8: kept, then dropped. *)
Example calculate_flips_sample_thresholds :
  (exists c,
     calculate_flips ascii_lower sample_float [sample_gift "plushpepe" 10]
       {[ str "plushpepe" := 12 ]} 5 = Ok [c])
  /\ calculate_flips ascii_lower sample_float [sample_gift "plushpepe" 10]
       {[ str "plushpepe" := 12 ]} 8 = Ok [].
Proof. split; [eexists|]; vm_compute; reflexivity. Qed.

(** Two listed gifts against Portals at 12: the one at 10 is bought on
    Tonnel, the one at 12 is dropped. *)
Lemma calculate_flips_direction_witness :
  exists r,
    calculate_flips ascii_lower sample_float
      [sample_gift "plushpepe" 10; sample_gift "lolpop" 12]
      {[ str "plushpepe" := 12; str "lolpop" := 12 ]} 5 = Ok r
    /\ length r = 1%nat
    /\ exists tonnel_floors,
         tonnel_floors_of ascii_lower sample_float
           [sample_gift "plushpepe" 10; sample_gift "lolpop" 12]
         = Ok tonnel_floors
         /\ (forall c, c ∈ r ->
               exists price_tonnel price_portal,
                 tonnel_floors !! name c = Some price_tonnel
                 /\ ({[ str "plushpepe" := 12; str "lolpop" := 12 ]}
                       : gmap pystr Q) !! name c = Some price_portal
                 /\ ~ price_tonnel == price_portal
                 /\ ((price_tonnel < price_portal
                      /\ market_buy c = Tonnel /\ market_sell c = Portals
                      /\ price_buy c
                         = price_tonnel * (1 + COMMISSION_RATE_TONNEL)
                      /\ price_sell c = price_portal)
                     \/ (price_portal < price_tonnel
                         /\ market_buy c = Portals /\ market_sell c = Tonnel
                         /\ price_buy c
                            = price_portal * (1 + COMMISSION_RATE_PORTALS)
                         /\ price_sell c = price_tonnel)))
         /\ (forall k price_tonnel price_portal,
               tonnel_floors !! k = Some price_tonnel ->
               ({[ str "plushpepe" := 12; str "lolpop" := 12 ]}
                  : gmap pystr Q) !! k = Some price_portal ->
               price_tonnel == price_portal ->
               forall c, c ∈ r -> name c <> k).
Proof.
  eexists. split; [vm_compute; reflexivity|]. split; [reflexivity|].
  apply (calculate_flips_direction ascii_lower sample_float
           [sample_gift "plushpepe" 10; sample_gift "lolpop" 12]
           {[ str "plushpepe" := 12; str "lolpop" := 12 ]} 5).
  vm_compute. reflexivity.
Defined.

(** C2. The prices map of the scan is keyed by normalised names, the auction
    loop looks its auctions up by their raw names: an auction of Plush Pepe,
    model Gold, finds no price although the map holds the two Portals quotes
    of (plushpepe, gold), and the scan returns the Portals spread alone.  The
    same auction under its canonical spelling is matched and sold at the
    second quote. *)
Theorem auction_lookup_by_raw_name :
  let auction := sample_auction "Plush Pepe" "Gold" 10 in
  let keys := [(str "plushpepe", str "gold")] in
  let prices :=
    fetch_portals_model_prices sample_float (sample_search 20 25) (str "token") keys
      0 10000 in
  collect_model_keys ascii_lower [auction] = Ok keys
  /\ assoc_get (normalise_name ascii_lower (str "Plush Pepe"),
                normalise_name ascii_lower (str "Gold")) prices
     = Some (Some 20, Some 25)
  /\ calculate_auction_flips ascii_lower sample_float [auction] prices 5 ∅
     = Ok []
  /\ (exists c,
        scan_and_find ascii_lower sample_float
          (sample_pages [] (Ok (PList [])))
          (sample_pages [auction] (Ok (PList [])))
          (sample_search 20 25) sample_update_auth
          (str "tonnel") (str "id") (str "hash") 0 10000 5 = Ok [c]
        /\ market_buy c = Portals)
  /\ (exists c,
        calculate_auction_flips ascii_lower sample_float
          [sample_auction "plushpepe" "gold" 10] prices 5 ∅ = Ok [c]
        /\ market_buy c = TonnelAuction /\ price_sell c = 25).
Proof.
  cbv zeta. split; [vm_compute; reflexivity|]. split; [vm_compute; reflexivity|].
  split; [vm_compute; reflexivity|]. split.
  - eexists. split; [vm_compute; reflexivity|reflexivity].
  - eexists. split; [vm_compute; reflexivity|]. split; reflexivity.
Qed.

(** C3. Two of the four strategies divide by the cost without testing it: a
    Portals floor of 0 under a second quote of 1, or a highest bid of 0 under
    a Portals quote of 1, raise [ZeroDivisionError], also through the scan.
    [calculate_model_flips] keeps a candidate of profit zero and
    [calculate_flips] one of negative profit when the threshold allows. *)
Theorem division_by_zero_cost :
  calculate_portals_internal_flips
    [((str "plushpepe", str "gold"), (Some 0, Some 1))] 5
  = Error ZeroDivisionError
  /\ calculate_auction_flips ascii_lower sample_float
       [bid_auction "plushpepe" "gold" 0]
       [((str "plushpepe", str "gold"), (Some 1, None))] 5 ∅
     = Error ZeroDivisionError
  /\ scan_and_find ascii_lower sample_float
       (sample_pages [] (Ok (PList [])))
       (sample_pages [sample_auction "plushpepe" "gold" 10] (Ok (PList [])))
       (sample_search 0 1) sample_update_auth
       (str "tonnel") (str "id") (str "hash") 0 10000 5
     = Error ZeroDivisionError
  /\ (exists c,
        calculate_model_flips {[ (str "plushpepe", str "gold") := 1 ]}
          {[ (str "plushpepe", str "gold") := 121 # 95 ]} 0 None = Ok [c]
        /\ profit_absolute c == 0)
  /\ (exists c,
        calculate_flips ascii_lower sample_float [sample_gift "plushpepe" 10]
          {[ str "plushpepe" := 11 ]} (-10) = Ok [c]
        /\ profit_absolute c < 0).
Proof.
  split; [vm_compute; reflexivity|]. split; [vm_compute; reflexivity|].
  split; [vm_compute; reflexivity|]. split.
  - eexists. split; [vm_compute; reflexivity|reflexivity].
  - eexists. split; [vm_compute; reflexivity|reflexivity].
Qed.

(** C8. After a full first page, a second page that raises or is a string
    leaves [fetch_tonnel_gifts] with the first page; a second page that is a
    number makes it raise [TypeError], and one that is a dict adds the keys of
    the dict to the records.  [fetch_tonnel_auctions] returns the first page
    in all four cases. *)
Theorem fetch_tonnel_gifts_non_list_page :
  let blocked := PDict [(str "error", PStr (str "blocked"))] in
  fetch_tonnel_gifts (sample_pages full_page (Error OtherError))
    (str "tonnel") 0 10000 10 = Ok full_page
  /\ fetch_tonnel_gifts (sample_pages full_page (Ok (PStr (str "blocked"))))
       (str "tonnel") 0 10000 10 = Ok full_page
  /\ fetch_tonnel_gifts (sample_pages full_page (Ok (PNum 1)))
       (str "tonnel") 0 10000 10 = Error TypeError
  /\ fetch_tonnel_gifts (sample_pages full_page (Ok blocked))
       (str "tonnel") 0 10000 10 = Ok (full_page ++ [PStr (str "error")])
  /\ fetch_tonnel_auctions (sample_pages full_page (Error OtherError))
       (str "tonnel") 0 10000 5 = Ok full_page
  /\ fetch_tonnel_auctions (sample_pages full_page (Ok (PStr (str "blocked"))))
       (str "tonnel") 0 10000 5 = Ok full_page
  /\ fetch_tonnel_auctions (sample_pages full_page (Ok (PNum 1)))
       (str "tonnel") 0 10000 5 = Ok full_page
  /\ fetch_tonnel_auctions (sample_pages full_page (Ok blocked))
       (str "tonnel") 0 10000 5 = Ok full_page.
Proof. cbv zeta. repeat split; vm_compute; reflexivity. Qed.



(** The ASCII instance of [str.lower] meets the three requirements of C6,
    so the canonical form is idempotent outright on that instance. *)
Lemma normalise_name_idempotent_witness :
  (forall x, normalise_name ascii_lower (normalise_name ascii_lower x)
             = normalise_name ascii_lower x)
  /\ normalise_name ascii_lower (str "Plush Pepe")
     = normalise_name ascii_lower (str "plush-pepe")
  /\ normalise_name ascii_lower (str "plush-pepe")
     = normalise_name ascii_lower (str "PlushPepe")
  /\ normalise_name ascii_lower (str "PlushPepe") = str "plushpepe".
Proof.
  apply (normalise_name_idempotent ascii_lower).
  - exact ascii_lower_idem.
  - exact ascii_lower_noise.
  - intros s _. reflexivity.
Defined.

(** * Further properties *)

(** ** What the fetches return *)

Section PaginateRecords.

Variable body : Z -> list pyval -> turn.
Variable max_pages : Z.
Variable records : Z -> list pyval.

(** A loop whose every turn appends the records of its page returns the
    records of the requested pages, page after page. *)
Lemma paginate_concat (fuel : nat) (page : Z) (acc : list pyval) :
  (forall p, p ∈ fst (paginate body max_pages fuel page acc) ->
     forall a, body p a = Break (Ok (a ++ records p))
               \/ body p a = Next (a ++ records p)) ->
  snd (paginate body max_pages fuel page acc)
  = Ok (acc ++ concat (List.map records
                         (fst (paginate body max_pages fuel page acc)))).
Proof.
  revert page acc. induction fuel as [|fuel IH]; intros page acc; simpl.
  - intros _. now rewrite app_nil_r.
  - destruct (page <=? max_pages)%Z; [|intros _; simpl; now rewrite app_nil_r].
    destruct (body page acc) as [out|acc'] eqn:Hbody.
    + intros H. simpl. destruct (H page ltac:(left) acc) as [Hb|Hb];
        rewrite Hbody in Hb; [|discriminate].
      inversion Hb; subst. now rewrite app_nil_r.
    + specialize (IH (page + 1)%Z acc').
      destruct (paginate body max_pages fuel (page + 1) acc') as [pages out].
      simpl in *. intros H.
      destruct (H page ltac:(left) acc) as [Hb|Hb];
        rewrite Hbody in Hb; [discriminate|].
      inversion Hb; subst acc'.
      rewrite IH; [now rewrite <- app_assoc|].
      intros p Hp. apply H. now right.
Qed.

End PaginateRecords.

Section FetchRecords.

Variable getGifts : Z -> Q * Q -> pystr -> failing pyval.
Variable getAuctions : Z -> Z * Z -> pystr -> failing pyval.
Variable auth_data : pystr.


Lemma gifts_turn_records (min_price max_price : Q) (p : Z) (a : list pyval) :
  ~ bare_scalar (getGifts p (min_price, max_price) auth_data) ->
  gifts_turn getGifts auth_data min_price max_price p a
  = Break (Ok (a ++ gift_records (getGifts p (min_price, max_price) auth_data)))
  \/ gifts_turn getGifts auth_data min_price max_price p a
     = Next (a ++ gift_records (getGifts p (min_price, max_price) auth_data)).
Proof.
  unfold gifts_turn, gift_records, bare_scalar.
  destruct (getGifts p (min_price, max_price) auth_data) as [v|e];
    [|intros _; left; now rewrite app_nil_r].
  destruct v as [|b|q|s|l|d]; simpl.
  - intros _. left. now rewrite app_nil_r.
  - intros Hb. destruct b; [now destruct Hb|]. left. now rewrite app_nil_r.
  - intros Hq. destruct (Qeq_bool q 0) eqn:E; simpl.
    + left. now rewrite app_nil_r.
    + apply Qeq_bool_neq in E. contradiction.
  - intros _. destruct s; simpl; left; now rewrite app_nil_r.
  - intros _. destruct l as [|x l]; simpl; [left; now rewrite app_nil_r|].
    destruct (S (length l) <? 30)%nat; [now left|now right].
  - intros _. destruct d as [|x d]; simpl; [left; now rewrite app_nil_r|].
    rewrite length_map.
    destruct (S (length d) <? 30)%nat; [now left|now right].
Qed.


(** X2. As long as no requested page is a bare number or boolean,
    [fetch_tonnel_gifts] does not raise and returns the records of the pages
    it requested, in page order (for a dict page, its keys). *)
Theorem fetch_tonnel_gifts_concat (min_price max_price : Q) (max_pages : Z) :
  (forall p,
     p ∈ fst (fetch_tonnel_gifts_paged getGifts auth_data min_price max_price
                max_pages) ->
     ~ bare_scalar (getGifts p (min_price, max_price) auth_data)) ->
  fetch_tonnel_gifts getGifts auth_data min_price max_price max_pages
  = Ok (concat
          (List.map
             (fun p => gift_records (getGifts p (min_price, max_price) auth_data))
             (fst (fetch_tonnel_gifts_paged getGifts auth_data
                     min_price max_price max_pages)))).
Proof.
  unfold fetch_tonnel_gifts, fetch_tonnel_gifts_paged. intros H.
  rewrite (paginate_concat _ _
             (fun p => gift_records
                         (getGifts p (min_price, max_price) auth_data)));
    [reflexivity|].
  intros p Hp a. apply gifts_turn_records. now apply H.
Qed.

(** X3. A page request that raises is the last one: there is no retry and no
    later page.  The same holds for a string page in [fetch_tonnel_gifts] and
    for any page that is not a list in [fetch_tonnel_auctions]. *)
Theorem failed_page_is_last (min_price max_price : Q) (max_pages : Z) :
  (forall p,
     p ∈ fst (fetch_tonnel_gifts_paged getGifts auth_data min_price max_price
                max_pages) ->
     failed_gifts_page (getGifts p (min_price, max_price) auth_data) ->
     p = Z.of_nat (length (fst (fetch_tonnel_gifts_paged getGifts auth_data
                                  min_price max_price max_pages))))
  /\ (forall p,
        p ∈ fst (fetch_tonnel_auctions_paged getAuctions auth_data min_price
                   max_price max_pages) ->
        failed_auctions_page
          (getAuctions p (py_int min_price, py_int max_price) auth_data) ->
        p = Z.of_nat (length (fst (fetch_tonnel_auctions_paged getAuctions
                                     auth_data min_price max_price max_pages)))).
Proof.
  split.
  - unfold fetch_tonnel_gifts_paged. intros p Hp Hfail.
    pose proof (paginate_pages
      (gifts_turn getGifts auth_data min_price max_price) max_pages
      (Z.to_nat max_pages) 1 [] ltac:(lia)) as (_ & _ & Hstop & _).
    rewrite (Hstop p Hp); [lia|].
    intros a. unfold gifts_turn, failed_gifts_page in *.
    destruct (getGifts p (min_price, max_price) auth_data) as [v|e]; [|eauto].
    rewrite Hfail. destruct (negb (py_bool v)); eauto.
  - unfold fetch_tonnel_auctions_paged. intros p Hp Hfail.
    pose proof (paginate_pages
      (auctions_turn getAuctions auth_data (py_int min_price, py_int max_price))
      max_pages (Z.to_nat max_pages) 1 [] ltac:(lia)) as (_ & _ & Hstop & _).
    rewrite (Hstop p Hp); [lia|].
    intros a. unfold auctions_turn, failed_auctions_page in *.
    destruct (getAuctions p _ auth_data) as [v|e]; [|eauto].
    rewrite Hfail. simpl. rewrite orb_true_r. eauto.
Qed.

End FetchRecords.

(** ** Dicts in insertion order *)

Section DictSet.

Context {K V : Type} `{EqDecision K}.

Lemma assoc_get_dict_set_eq (k : K) (v : V) (d : list (K * V)) :
  assoc_get k (dict_set k v d) = Some v.
Proof.
  induction d as [|[k' v'] d IH]; cbn [assoc_get dict_set].
  - case_decide; congruence.
  - case_decide; cbn [assoc_get]; case_decide; congruence.
Qed.

Lemma assoc_get_dict_set_ne (k k' : K) (v : V) (d : list (K * V)) :
  k <> k' -> assoc_get k' (dict_set k v d) = assoc_get k' d.
Proof.
  intros Hne. induction d as [|[k0 v0] d IH]; cbn [assoc_get dict_set].
  - case_decide; congruence.
  - case_decide; cbn [assoc_get]; repeat case_decide; congruence.
Qed.

Lemma dict_set_keys (k : K) (v : V) (d : list (K * V)) :
  List.map fst (dict_set k v d)
  = if decide (k ∈ List.map fst d) then List.map fst d
    else List.map fst d ++ [k].
Proof.
  induction d as [|[k0 v0] d IH]; cbn [dict_set List.map fst].
  - destruct (decide (k ∈ [])) as [Hin|_]; [inversion Hin|reflexivity].
  - destruct (decide (k = k0)) as [->|Hne]; cbn [List.map fst].
    + destruct (decide (k0 ∈ k0 :: List.map fst d)) as [_|Hin]; [reflexivity|].
      exfalso. apply Hin. left.
    + rewrite IH. destruct (decide (k ∈ List.map fst d)) as [Hin|Hnin];
        destruct (decide (k ∈ k0 :: List.map fst d)) as [Hin'|Hin'];
        try reflexivity.
      * exfalso. apply Hin'. now right.
      * apply elem_of_cons in Hin' as [?|?]; contradiction.
Qed.

Lemma dict_set_NoDup (k : K) (v : V) (d : list (K * V)) :
  NoDup (List.map fst d) -> NoDup (List.map fst (dict_set k v d)).
Proof.
  intros Hd. rewrite dict_set_keys.
  destruct (decide (k ∈ List.map fst d)) as [Hin|Hnin]; [exact Hd|].
  apply NoDup_app. repeat split; [exact Hd| |apply NoDup_singleton].
  intros x Hx Hx'. apply list_elem_of_singleton in Hx'. now subst.
Qed.


End DictSet.

(** ** Portals quotes per model *)

Section PortalsPrices.

Variable str_to_float : pystr -> option Q.
Variable search : pystr -> pystr -> pystr -> failing pyval.
Variable auth_data : pystr.
Variable min_price max_price : Q.

Lemma fetch_portals_model_prices_fold
    (model_keys : list (pystr * pystr))
    (results : list ((pystr * pystr) * (option Q * option Q))) :
  let step :=
    fun results '(gift_name, model_name) =>
      match search gift_name model_name auth_data with
      | Error _ => dict_set (gift_name, model_name) (None, None) results
      | Ok listings =>
          dict_set (gift_name, model_name)
            (floor_and_second str_to_float min_price max_price listings)
            results
      end in
  NoDup (List.map fst results) ->
  NoDup (List.map fst (fold_left step model_keys results))
  /\ forall key,
       assoc_get key (fold_left step model_keys results)
       = if decide (key ∈ model_keys)
         then Some (quotes_of str_to_float min_price max_price
                      (search (fst key) (snd key) auth_data))
         else assoc_get key results.
Proof.
  cbv zeta. revert results.
  induction model_keys as [|[g m] keys IH]; intros results Hnd; cbn [fold_left].
  - split; [exact Hnd|]. intros key.
    destruct (decide (key ∈ [])) as [H|_]; [inversion H|reflexivity].
  - set (v := quotes_of str_to_float min_price max_price (search g m auth_data)).
    assert (Hstep : match search g m auth_data with
                    | Ok listings =>
                        dict_set (g, m)
                          (floor_and_second str_to_float min_price max_price
                             listings) results
                    | Error _ => dict_set (g, m) (None, None) results
                    end = dict_set (g, m) v results).
    { unfold v, quotes_of. now destruct (search g m auth_data). }
    rewrite Hstep.
    destruct (IH (dict_set (g, m) v results)) as [IH1 IH2];
      [now apply dict_set_NoDup|].
    split; [exact IH1|]. intros key. rewrite IH2.
    destruct (decide (key ∈ keys)) as [Hin|Hnin];
      destruct (decide (key ∈ (g, m) :: keys)) as [Hin'|Hin'].
    + reflexivity.
    + exfalso. apply Hin'. now right.
    + apply elem_of_cons in Hin' as [->|?]; [|contradiction].
      now rewrite assoc_get_dict_set_eq.
    + rewrite assoc_get_dict_set_ne; [reflexivity|].
      intros <-. apply Hin'. left.
Qed.


Lemma listing_price_bounds (item : pyval) (p : Q) :
  listing_price str_to_float min_price max_price item = Some p ->
  min_price <= p /\ p <= max_price.
Proof.
  unfold listing_price. destruct item as [| | | | |d]; try discriminate.
  destruct (py_get d "price") as [|b|q|s|l|d'] eqn:E; try discriminate;
    (destruct (py_float str_to_float _) as [price|]; [|discriminate]);
    (destruct (Qltb price min_price) eqn:E1; [discriminate|]);
    (destruct (Qltb max_price price) eqn:E2; [discriminate|]);
    simpl; intros H; inversion H; subst;
    apply Qltb_ge in E1; apply Qltb_ge in E2; now split.
Qed.

Lemma floor_and_second_bounds (listings : pyval) (fl se : option Q) :
  floor_and_second str_to_float min_price max_price listings = (fl, se) ->
  (forall s, se = Some s -> exists f, fl = Some f)
  /\ (forall p, fl = Some p \/ se = Some p -> min_price <= p /\ p <= max_price).
Proof.
  unfold floor_and_second. destruct listings as [| | | |l|];
    try (intros H; inversion H; subst; split;
         [discriminate|intros p [?|?]; discriminate]).
  destruct (omap (listing_price str_to_float min_price max_price) l)
    as [|f rest] eqn:E.
  - intros H; inversion H; subst; split;
      [discriminate|intros p [?|?]; discriminate].
  - intros H; inversion H; subst; clear H. split; [eauto|].
    assert (Hall : forall p, p ∈ f :: rest -> min_price <= p /\ p <= max_price).
    { intros p Hp. rewrite <- E in Hp. apply list_elem_of_omap in Hp
        as (item & _ & Hitem). now apply listing_price_bounds in Hitem. }
    intros p [Hp|Hp].
    + inversion Hp; subst. apply Hall. left.
    + apply Hall. right. destruct rest as [|s rest]; [discriminate|].
      simpl in Hp. inversion Hp; subst. left.
Qed.


End PortalsPrices.

(** ** More on the loops *)


(** When every element gives at most one output that names it, distinct
    elements give distinct outputs. *)
Lemma for_append_NoDup {A B K} (key : B -> K) (tag : A -> K)
    (body : A -> failing (option B)) (l : list A) (r : list B) :
  (forall a b, body a = Ok (Some b) -> key b = tag a) ->
  NoDup (List.map tag l) ->
  for_append body l = Ok r -> NoDup (List.map key r).
Proof.
  intros Hkey. revert r. induction l as [|a l IH]; simpl; intros r Hnd H.
  - inversion H; subst. constructor.
  - inv_bind H as o Ho. inv_bind H as r' Hr'. inversion H; subst; clear H.
    apply NoDup_cons in Hnd as [Hnin Hnd]. specialize (IH _ Hnd Hr').
    destruct o as [b|]; [|exact IH]. simpl. apply NoDup_cons. split; [|exact IH].
    intros Hin. apply Hnin. rewrite <- (Hkey a b Ho).
    apply list_elem_of_fmap in Hin as (b' & Hb' & Hin).
    apply (for_append_Ok _ _ _ Hr') in Hin as (a' & Ha' & Hbody).
    rewrite Hb', (Hkey a' b' Hbody). apply list_elem_of_fmap. eauto.
Qed.


Lemma elem_of_assoc_get {K V} `{EqDecision K} (k : K) (v : V) (d : list (K * V)) :
  NoDup (List.map fst d) -> (k, v) ∈ d -> assoc_get k d = Some v.
Proof.
  induction d as [|[k0 v0] d IH]; cbn [assoc_get List.map fst]; intros Hnd Hin.
  - inversion Hin.
  - apply NoDup_cons in Hnd as [Hnin Hnd].
    apply elem_of_cons in Hin as [Heq|Hin].
    + inversion Heq; subst. destruct (decide (k0 = k0)); congruence.
    + destruct (decide (k = k0)) as [->|Hne]; [|now apply IH].
      exfalso. apply Hnin. apply list_elem_of_fmap. exists (k0, v). auto.
Qed.

(** ** The auction strategy and the Portals spread *)

Section AuctionStrategy.

Variable str_lower : pystr -> pystr.
Variable str_to_float : pystr -> option Q.



End AuctionStrategy.

Section InternalStrategy.


(** An entry without a zero floor never makes the Portals spread raise. *)
Lemma internal_flip_returns (min_pct : Q)
    (item : (pystr * pystr) * (option Q * option Q)) :
  (forall fl, fst (snd item) = Some fl -> ~ fl == 0) ->
  exists o, internal_flip min_pct item = Ok o.
Proof.
  unfold internal_flip. destruct item as [[g m] [[fl|] [se|]]]; eauto.
  simpl. intros Hfl. specialize (Hfl fl eq_refl).
  destruct (Qle_bool _ 0); [eauto|].
  rewrite py_div_nonzero.
  - simpl. destruct (Qltb _ min_pct); eauto.
  - unfold COMMISSION_RATE_PORTALS. intros Hz. apply Hfl.
    assert (Hb : fl * (1 + 0.05) == 0) by exact Hz. lra.
Qed.

End InternalStrategy.

(** ** The model strategy *)

Lemma model_flip_spec (tf pf : gmap (pystr * pystr) Q) (min_pct : Q)
    (cs : option (gmap pystr bool)) (key : pystr * pystr) (pt pp : Q) :
  tf !! key = Some pt -> pf !! key = Some pp ->
  model_flip tf pf min_pct cs key
  = Ok (if Qltb pt pp && negb (Qle_bool (model_cost pt) 0)
           && negb (Qltb (model_profit pt pp) 0)
           && negb (Qltb (model_profit pt pp / model_cost pt * 100) min_pct)
        then
          Some {|
            name := fst key; model := snd key;
            backdrop := PStr []; symbol := PStr [];
            price_buy := model_cost pt; price_sell := pp;
            profit_absolute := model_profit pt pp;
            profit_percent := model_profit pt pp / model_cost pt * 100;
            market_buy := Tonnel; market_sell := Portals;
            clean := match cs with
                     | Some cs => default true (cs !! fst key)
                     | None => true
                     end |}
        else None).
Proof.
  intros Ht Hp. unfold model_flip. destruct key as [g m]. rewrite Ht, Hp.
  destruct (Qltb pt pp); [|destruct (Qltb pp pt); reflexivity].
  cbv zeta. destruct (decide (Tonnel <> Portals)) as [_|Hn];
    [|exfalso; apply Hn; discriminate].
  fold (model_cost pt). fold (model_profit pt pp).
  destruct (Qle_bool (model_cost pt) 0) eqn:Ec; [reflexivity|].
  apply Qle_bool_gt in Ec. rewrite py_div_nonzero by lra. simpl.
  destruct (Qltb (model_profit pt pp) 0); [reflexivity|]. simpl.
  destruct (Qltb _ min_pct); reflexivity.
Qed.

Lemma calculate_model_flips_unfold (tf pf : gmap (pystr * pystr) Q)
    (min_pct : Q) (cs : option (gmap pystr bool)) :
  exists opp,
    for_append (model_flip tf pf min_pct cs) (elements (dom tf ∩ dom pf)) = Ok opp
    /\ calculate_model_flips tf pf min_pct cs = Ok (sort_by_profit opp).
Proof.
  destruct (for_append_total (model_flip tf pf min_pct cs)
              (elements (dom tf ∩ dom pf))) as [opp Hopp].
  { intros key _. apply model_flip_returns. }
  exists opp. split; [exact Hopp|].
  unfold calculate_model_flips. now rewrite Hopp.
Qed.

(** X9. [calculate_model_flips] always returns, in descending order of
    profit, with at most one candidate per (gift, model) pair.  For every
    candidate the buy price is the Tonnel floor plus 6%, strictly positive;
    the profit is the Portals floor less 5%, minus the buy price, minus the
    transfer fee, and is not negative; the percentage is 100 times the profit
    over the buy price and reaches the threshold; the clean flag is the one
    recorded for the gift, clean when nothing is recorded. *)
Theorem calculate_model_flips_scored
    (tonnel_model_floors portals_model_floors : gmap (pystr * pystr) Q)
    (min_profit_percent : Q) (clean_status : option (gmap pystr bool)) :
  exists r,
    calculate_model_flips tonnel_model_floors portals_model_floors
      min_profit_percent clean_status = Ok r
    /\ StronglySorted by_profit_desc r
    /\ NoDup (List.map model_key_of r)
    /\ forall c, c ∈ r ->
         exists price_tonnel price_portal,
           tonnel_model_floors !! (name c, model c) = Some price_tonnel
           /\ portals_model_floors !! (name c, model c) = Some price_portal
           /\ price_buy c = model_cost price_tonnel
           /\ 0 < price_buy c
           /\ profit_absolute c = model_profit price_tonnel price_portal
           /\ 0 <= profit_absolute c
           /\ profit_percent c = profit_absolute c / price_buy c * 100
           /\ min_profit_percent <= profit_percent c
           /\ clean c = match clean_status with
                        | Some cs => default true (cs !! name c)
                        | None => true
                        end.
Proof.
  destruct (calculate_model_flips_unfold tonnel_model_floors
              portals_model_floors min_profit_percent clean_status)
    as (opp & Hopp & ->).
  eexists. split; [reflexivity|]. split; [apply sort_by_profit_sorted|].
  assert (Hbody : forall key c,
            model_flip tonnel_model_floors portals_model_floors
              min_profit_percent clean_status key = Ok (Some c) ->
            model_key_of c = key
            /\ exists pt pp,
                 tonnel_model_floors !! key = Some pt
                 /\ portals_model_floors !! key = Some pp
                 /\ price_buy c = model_cost pt
                 /\ 0 < price_buy c
                 /\ profit_absolute c = model_profit pt pp
                 /\ 0 <= profit_absolute c
                 /\ profit_percent c = profit_absolute c / price_buy c * 100
                 /\ min_profit_percent <= profit_percent c
                 /\ clean c = match clean_status with
                              | Some cs => default true (cs !! name c)
                              | None => true
                              end).
  { intros key c Hc.
    destruct (model_flip_Some _ _ _ _ _ _ Hc) as (pt & pp & Ht & Hp & _).
    rewrite (model_flip_spec _ _ _ _ _ pt pp Ht Hp) in Hc.
    destruct (Qltb pt pp) eqn:E1; [|discriminate].
    destruct (Qle_bool (model_cost pt) 0) eqn:E2; [discriminate|].
    destruct (Qltb (model_profit pt pp) 0) eqn:E3; [discriminate|].
    destruct (Qltb _ min_profit_percent) eqn:E4; [discriminate|].
    simpl in Hc. inversion Hc; subst; clear Hc.
    apply Qle_bool_gt in E2. apply Qltb_ge in E3. apply Qltb_ge in E4.
    unfold model_key_of. simpl. split; [now destruct key|].
    exists pt, pp. repeat split; auto. }
  split.
  - change (NoDup (model_key_of <$> sort_by_profit opp)).
    rewrite sort_by_profit_perm.
    eapply (for_append_NoDup model_key_of id); [| |exact Hopp].
    + intros k c H. exact (proj1 (Hbody k c H)).
    + rewrite List.map_id. apply NoDup_elements.
  - intros c Hc. apply (proj1 (elem_of_sort_by_profit _ _)) in Hc.
    apply (for_append_Ok _ _ _ Hopp) in Hc as (key & _ & Hc).
    destruct (Hbody key c Hc) as (Hkey & pt & pp & Ht & Hp & Hrest).
    unfold model_key_of in Hkey. rewrite Hkey. exists pt, pp. auto.
Qed.


(** ** The item strategy *)

Lemma find_snoc {A} (p : A -> bool) (l : list A) (a : A) :
  List.find p (l ++ [a])
  = match List.find p l with
    | Some x => Some x
    | None => if p a then Some a else None
    end.
Proof.
  induction l as [|x l IH]; simpl; [reflexivity|].
  destruct (p x); [reflexivity|exact IH].
Qed.

Lemma gift_flip_clean (cs : gmap pystr bool) (tf pf : gmap pystr Q)
    (min_pct : Q) (k : pystr) (c : GiftCandidate) :
  gift_flip cs tf pf min_pct k = Ok (Some c) ->
  (market_buy c = Tonnel -> clean c = default true (cs !! k))
  /\ (market_buy c = Portals -> clean c = true).
Proof.
  unfold gift_flip.
  destruct (tf !! k) as [pt|]; [|discriminate].
  destruct (pf !! k) as [pp|]; [|discriminate].
  destruct (Qltb pt pp).
  - cbv beta iota zeta.
    destruct (decide (Tonnel = Tonnel)); [|congruence].
    destruct (decide (Portals = Tonnel)); [discriminate|].
    destruct (Qeq_bool _ 0); [discriminate|].
    intros H. inv_bind H as ratio Hr.
    destruct (Qltb _ min_pct); [discriminate|].
    inversion H; subst; clear H. simpl. split; [reflexivity|discriminate].
  - destruct (Qltb pp pt); [|discriminate]. cbv beta iota zeta.
    destruct (decide (Tonnel = Tonnel)); [|congruence].
    destruct (decide (Portals = Tonnel)); [discriminate|].
    destruct (Qeq_bool _ 0); [discriminate|].
    intros H. inv_bind H as ratio Hr.
    destruct (Qltb _ min_pct); [discriminate|].
    inversion H; subst; clear H. simpl. split; [discriminate|reflexivity].
Qed.

Section ItemStrategy.

Variable str_lower : pystr -> pystr.
Variable str_to_float : pystr -> option Q.

(** X11. Whatever [calculate_flips] returns is in descending order of profit
    and holds at most one candidate per canonical gift name.  A candidate
    bought on Portals is marked clean; a candidate bought on Tonnel carries
    the flag the first loop recorded for its name, clean when none was
    recorded. *)
Theorem calculate_flips_ranked (tonnel_gifts : list pyval)
    (portal_floors : gmap pystr Q) (min_profit_percent : Q)
    (r : list GiftCandidate) :
  calculate_flips str_lower str_to_float tonnel_gifts portal_floors
    min_profit_percent = Ok r ->
  StronglySorted by_profit_desc r
  /\ NoDup (List.map name r)
  /\ exists clean_status,
       flips_clean_status str_lower tonnel_gifts = Ok clean_status
       /\ forall c, c ∈ r ->
            (market_buy c = Tonnel ->
             clean c = default true (clean_status !! name c))
            /\ (market_buy c = Portals -> clean c = true).
Proof.
  unfold calculate_flips. intros H.
  inv_bind H as cs Hcs. inv_bind H as tf Htf. inv_bind H as opp Hopp.
  inversion H; subst; clear H.
  assert (Hname : forall k c,
            gift_flip cs tf portal_floors min_profit_percent k = Ok (Some c) ->
            name c = k).
  { intros k c Hc. now apply gift_flip_Some in Hc as (? & ? & _ & _ & Hn & _). }
  split; [apply sort_by_profit_sorted|]. split.
  - change (NoDup (name <$> sort_by_profit opp)).
    rewrite sort_by_profit_perm.
    eapply (for_append_NoDup name id); [exact Hname| |exact Hopp].
    rewrite List.map_id. apply NoDup_elements.
  - exists cs. split; [exact Hcs|]. intros c Hc.
    apply (proj1 (elem_of_sort_by_profit _ _)) in Hc.
    apply (for_append_Ok _ _ _ Hopp) in Hc as (k & _ & Hk).
    rewrite (Hname k c Hk). now apply gift_flip_clean in Hk.
Qed.

(** X12. The flag the first loop of [calculate_flips] records for a name is
    that of the first listing bearing the name: later listings of the same
    name, signed or not, do not change it. *)
Theorem flips_clean_status_first (tonnel_gifts : list pyval)
    (clean_status : gmap pystr bool) :
  flips_clean_status str_lower tonnel_gifts = Ok clean_status ->
  forall k,
    clean_status !! k
    = signature_absent_or_empty <$> first_listing str_lower k tonnel_gifts.
Proof.
  unfold flips_clean_status.
  apply (for_fold_inv
    (fun done (cs : gmap pystr bool) => forall k,
       cs !! k = signature_absent_or_empty <$> first_listing str_lower k done)).
  - intros k. now rewrite lookup_empty.
  - intros done g s s' IH Hbody k. unfold first_listing. rewrite find_snoc.
    fold (first_listing str_lower k done).
    assert (Hskip : listing_name str_lower g = None -> s' = s ->
              s' !! k
              = signature_absent_or_empty <$>
                  match first_listing str_lower k done with
                  | Some x => Some x
                  | None =>
                      if bool_decide (listing_name str_lower g = Some k)
                      then Some g else None
                  end).
    { intros Hnone ->. rewrite IH, Hnone.
      rewrite bool_decide_eq_false_2 by discriminate.
      now destruct (first_listing str_lower k done). }
    destruct g as [| | | | |d]; try (inversion Hbody; subst; now apply Hskip).
    cbv zeta in Hbody.
    destruct (py_bool (py_get d "name")) eqn:Etruthy; simpl in Hbody.
    2:{ inversion Hbody; subst. apply Hskip; [|reflexivity].
        unfold listing_name. destruct (py_get d "name") as [| | |[|c n]| |];
          try reflexivity. discriminate. }
    inv_bind Hbody as short Hshort. clear Hskip.
    assert (Hname : listing_name str_lower (PDict d) = Some short).
    { unfold listing_name. destruct (py_get d "name") as [| | |[|c n]| |];
        try discriminate. now inversion Hshort. }
    assert (Hsig : negb (py_bool (py_get d "signature"))
                   = signature_absent_or_empty (PDict d)).
    { unfold signature_absent_or_empty, py_get.
      now destruct (assoc_get (str "signature") d). }
    rewrite Hname. rewrite Hsig in Hbody.
    destruct (decide (short = k)) as [->|Hne].
    + rewrite bool_decide_eq_true_2 by reflexivity.
      pose proof (IH k) as IHk.
      destruct (s !! k) as [b|] eqn:Es; inversion Hbody; subst; clear Hbody.
      * rewrite Es, IHk.
        destruct (first_listing str_lower k done); [reflexivity|discriminate].
      * rewrite lookup_insert_eq.
        destruct (first_listing str_lower k done); [discriminate|reflexivity].
    + rewrite bool_decide_eq_false_2 by congruence.
      assert (Hs' : s' !! k = s !! k).
      { destruct (s !! short); inversion Hbody; subst; [reflexivity|].
        now rewrite lookup_insert_ne. }
      rewrite Hs', IH. now destruct (first_listing str_lower k done).
Qed.

(** X13. The floor [calculate_flips] takes for a canonical name is the
    lowest price among the listings of that name whose price parses: it is
    the price of one of them and no other is cheaper.  A name has no floor
    exactly when no such listing exists. *)
Theorem tonnel_floors_of_minimum (tonnel_gifts : list pyval)
    (tonnel_floors : gmap pystr Q) :
  tonnel_floors_of str_lower str_to_float tonnel_gifts = Ok tonnel_floors ->
  forall k,
    match tonnel_floors !! k with
    | None =>
        forall g p, g ∈ tonnel_gifts ->
          listing_quote str_lower str_to_float g <> Some (k, p)
    | Some floor_price =>
        (exists g, g ∈ tonnel_gifts
           /\ listing_quote str_lower str_to_float g = Some (k, floor_price))
        /\ forall g p, g ∈ tonnel_gifts ->
             listing_quote str_lower str_to_float g = Some (k, p) ->
             floor_price <= p
    end.
Proof.
  unfold tonnel_floors_of.
  apply (for_fold_inv
    (fun done (tf : gmap pystr Q) => forall k,
       match tf !! k with
       | None =>
           forall g p, g ∈ done ->
             listing_quote str_lower str_to_float g <> Some (k, p)
       | Some fl =>
           (exists g, g ∈ done
              /\ listing_quote str_lower str_to_float g = Some (k, fl))
           /\ forall g p, g ∈ done ->
                listing_quote str_lower str_to_float g = Some (k, p) ->
                fl <= p
       end)).
  - intros k. rewrite lookup_empty. intros g p Hg. inversion Hg.
  - intros done g s s' IH Hbody.
    assert (Hstep :
      (listing_quote str_lower str_to_float g = None /\ s' = s)
      \/ exists short price,
           listing_quote str_lower str_to_float g = Some (short, price)
           /\ s' = match s !! short with
                   | None => <[short := price]> s
                   | Some current =>
                       if Qltb price current then <[short := price]> s else s
                   end).
    { destruct g as [| | | | |d]; try (inversion Hbody; subst; now left).
      cbv zeta in Hbody. unfold listing_quote, listing_name.
      destruct (py_bool (py_get d "name")) eqn:Etruthy; simpl in Hbody.
      2:{ inversion Hbody; subst. left. split; [|reflexivity].
          destruct (py_get d "name") as [| | |[|c n]| |]; try reflexivity.
          discriminate. }
      inv_bind Hbody as short Hshort.
      destruct (py_get d "name") as [| | |[|c n]| |]; try discriminate.
      inversion Hshort; subst short; clear Hshort.
      unfold float_or_skip in Hbody.
      assert (Hput : forall price,
                @Ok _ exn
                   match s !! normalise_name str_lower (c :: n) with
                   | Some current =>
                       if Qltb price current
                       then <[normalise_name str_lower (c :: n) := price]> s
                       else s
                   | None => <[normalise_name str_lower (c :: n) := price]> s
                   end = Ok s' ->
                Some (normalise_name str_lower (c :: n), price) = None /\ s' = s
                \/ exists short price0,
                     Some (normalise_name str_lower (c :: n), price)
                     = Some (short, price0)
                     /\ s' = match s !! short with
                             | Some current =>
                                 if Qltb price0 current
                                 then <[short := price0]> s else s
                             | None => <[short := price0]> s
                             end).
      { intros price Hput. right. eexists _, _. split; [reflexivity|].
        now inversion Hput. }
      destruct (py_get d "price") as [|b|q|t|l|d']; try discriminate;
        try (inversion Hbody; subst; now left); simpl.
      - exact (Hput _ Hbody).
      - exact (Hput _ Hbody).
      - simpl in Hbody.
        destruct (str_to_float t) as [price|]; simpl in Hbody.
        + exact (Hput _ Hbody).
        + left. split; [reflexivity|now inversion Hbody]. }
    clear Hbody. intros k.
    destruct Hstep as [[Hnone ->]|(short & price & Hq & ->)].
    + specialize (IH k). destruct (s !! k) as [fl|].
      * destruct IH as [(g0 & Hg0 & Hq0) Hmin]. split.
        -- exists g0. split; [apply elem_of_app; now left|exact Hq0].
        -- intros g' p Hg' Hq'. apply elem_of_app in Hg' as [Hg'|Hg'].
           ++ now apply (Hmin g').
           ++ apply list_elem_of_singleton in Hg'. subst g'. congruence.
      * intros g' p Hg' Hq'. apply elem_of_app in Hg' as [Hg'|Hg'].
        -- now apply (IH g' p).
        -- apply list_elem_of_singleton in Hg'. subst g'. congruence.
    + assert (Hother : forall tf' : gmap pystr Q, short <> k ->
                tf' !! k = s !! k ->
                match tf' !! k with
                | None =>
                    forall g0 p, g0 ∈ done ++ [g] ->
                      listing_quote str_lower str_to_float g0 <> Some (k, p)
                | Some fl =>
                    (exists g0, g0 ∈ done ++ [g]
                       /\ listing_quote str_lower str_to_float g0 = Some (k, fl))
                    /\ forall g0 p, g0 ∈ done ++ [g] ->
                         listing_quote str_lower str_to_float g0 = Some (k, p) ->
                         fl <= p
                end).
      { intros tf' Hne ->. specialize (IH k). destruct (s !! k) as [fl|].
        - destruct IH as [(g0 & Hg0 & Hq0) Hmin]. split.
          + exists g0. split; [apply elem_of_app; now left|exact Hq0].
          + intros g' p Hg' Hq'. apply elem_of_app in Hg' as [Hg'|Hg'].
            * now apply (Hmin g').
            * apply list_elem_of_singleton in Hg'. subst g'. congruence.
        - intros g' p Hg' Hq'. apply elem_of_app in Hg' as [Hg'|Hg'].
          + now apply (IH g' p).
          + apply list_elem_of_singleton in Hg'. subst g'. congruence. }
      assert (Hnew : forall tf' : gmap pystr Q,
                tf' !! short = Some price ->
                (forall g0 p, g0 ∈ done ->
                   listing_quote str_lower str_to_float g0 = Some (short, p) ->
                   price <= p) ->
                match tf' !! short with
                | None =>
                    forall g0 p, g0 ∈ done ++ [g] ->
                      listing_quote str_lower str_to_float g0 <> Some (short, p)
                | Some fl =>
                    (exists g0, g0 ∈ done ++ [g]
                       /\ listing_quote str_lower str_to_float g0
                          = Some (short, fl))
                    /\ forall g0 p, g0 ∈ done ++ [g] ->
                         listing_quote str_lower str_to_float g0
                         = Some (short, p) ->
                         fl <= p
                end).
      { intros tf' -> Hmin. split.
        - exists g. split; [apply elem_of_app; right; left|exact Hq].
        - intros g' p Hg' Hq'. apply elem_of_app in Hg' as [Hg'|Hg'].
          + now apply (Hmin g').
          + apply list_elem_of_singleton in Hg'. subst g'.
            rewrite Hq in Hq'. inversion Hq'; subst. lra. }
      destruct (decide (short = k)) as [->|Hne].
      * pose proof (IH k) as IHk. destruct (s !! k) as [cur|] eqn:Es.
        -- destruct IHk as [(g0 & Hg0 & Hq0) Hmin].
           destruct (Qltb price cur) eqn:Elt.
           ++ apply Qltb_lt in Elt. apply Hnew; [apply lookup_insert_eq|].
              intros g' p Hg' Hq'. specialize (Hmin g' p Hg' Hq'). lra.
           ++ apply Qltb_ge in Elt. rewrite Es. split.
              ** exists g0. split; [apply elem_of_app; now left|exact Hq0].
              ** intros g' p Hg' Hq'. apply elem_of_app in Hg' as [Hg'|Hg'].
                 --- now apply (Hmin g').
                 --- apply list_elem_of_singleton in Hg'. subst g'.
                     rewrite Hq in Hq'. inversion Hq'; subst. exact Elt.
        -- apply Hnew; [apply lookup_insert_eq|].
           intros g' p Hg' Hq'. exfalso. exact (IHk g' p Hg' Hq').
      * apply Hother; [exact Hne|].
        destruct (s !! short) as [cur|]; [destruct (Qltb price cur)|];
          try reflexivity; now rewrite lookup_insert_ne.
Qed.

End ItemStrategy.

Section ModelKeys.

Variable str_lower : pystr -> pystr.

(** X14. [collect_model_keys] returns each normalised (gift, model) pair of
    the auctions once: the list has no duplicate, and a pair is in it
    exactly when some auction with a non-empty string gift name and model
    normalises to it. *)
Theorem collect_model_keys_distinct (auctions : list pyval)
    (model_keys : list (pystr * pystr)) :
  collect_model_keys str_lower auctions = Ok model_keys ->
  NoDup model_keys
  /\ forall key,
       key ∈ model_keys <->
       exists a, a ∈ auctions /\ auction_key str_lower a = Some key.
Proof.
  unfold collect_model_keys. intros H. inv_bind H as st Hst.
  inversion H; subst; clear H. revert Hst.
  enough (G : for_fold
                (fun (st : list (pystr * pystr) * gset (pystr * pystr)) auction =>
                   let '(model_keys, seen_keys) := st in
                   match auction with
                   | PDict a =>
                       let gift := py_or (py_get a "gift_name") (py_get a "name") in
                       let model_ := py_get a "model" in
                       if negb (py_bool gift) || negb (py_bool model_) then Ok st
                       else
                         let* g_norm := normalise_name_dyn str_lower gift in
                         let* m_norm := normalise_name_dyn str_lower model_ in
                         let key := (g_norm, m_norm) in
                         if decide (key ∈ seen_keys) then Ok st
                         else Ok (model_keys ++ [key], {[key]} ∪ seen_keys)
                   | _ => Ok st
                   end) ([], ∅) auctions = Ok st ->
              NoDup st.1
              /\ (forall key, key ∈ st.2 <-> key ∈ st.1)
              /\ forall key, key ∈ st.1 <->
                   exists a, a ∈ auctions /\ auction_key str_lower a = Some key).
  { intros Hst. destruct (G Hst) as (Hnd & _ & Hkeys). now split. }
  apply (for_fold_inv
    (fun done (st : list (pystr * pystr) * gset (pystr * pystr)) =>
       NoDup st.1
       /\ (forall key, key ∈ st.2 <-> key ∈ st.1)
       /\ forall key, key ∈ st.1 <->
            exists a, a ∈ done /\ auction_key str_lower a = Some key)).
  - simpl. split; [constructor|]. split.
    + intros key. split; intros Hk; [now apply not_elem_of_empty in Hk|inversion Hk].
    + intros key. split; [intros Hk; inversion Hk|].
      intros (a & Ha & _). inversion Ha.
  - intros done a [keys seen] st' (Hnd & Hseen & Hkeys) Hbody.
    simpl in Hnd, Hseen, Hkeys, Hbody |- *.
    assert (Hskip : auction_key str_lower a = None -> st' = (keys, seen) ->
              NoDup st'.1
              /\ (forall key, key ∈ st'.2 <-> key ∈ st'.1)
              /\ forall key, key ∈ st'.1 <->
                   exists a', a' ∈ done ++ [a]
                              /\ auction_key str_lower a' = Some key).
    { intros Hnone ->. simpl. split; [exact Hnd|]. split; [exact Hseen|].
      intros key. rewrite Hkeys. split.
      - intros (a' & Ha' & Hk). exists a'. split; [|exact Hk].
        apply elem_of_app. now left.
      - intros (a' & Ha' & Hk). apply elem_of_app in Ha' as [Ha'|Ha'].
        + eauto.
        + apply list_elem_of_singleton in Ha'. subst a'. congruence. }
    assert (Hseen' : forall key, auction_key str_lower a = Some key ->
              key ∈ keys -> st' = (keys, seen) ->
              NoDup st'.1
              /\ (forall key, key ∈ st'.2 <-> key ∈ st'.1)
              /\ forall key, key ∈ st'.1 <->
                   exists a', a' ∈ done ++ [a]
                              /\ auction_key str_lower a' = Some key).
    { intros key0 Hkey0 Hin ->. simpl. split; [exact Hnd|]. split; [exact Hseen|].
      intros key. rewrite Hkeys. split.
      - intros (a' & Ha' & Hk). exists a'. split; [|exact Hk].
        apply elem_of_app. now left.
      - intros (a' & Ha' & Hk). apply elem_of_app in Ha' as [Ha'|Ha'].
        + eauto.
        + apply list_elem_of_singleton in Ha'. subst a'.
          rewrite Hkey0 in Hk. inversion Hk; subst. now apply Hkeys. }
    destruct a as [| | | | |d]; try (apply Hskip; [reflexivity|now inversion Hbody]).
    cbv zeta in Hbody.
    destruct (negb (py_bool (py_or (py_get d "gift_name") (py_get d "name")))
              || negb (py_bool (py_get d "model"))) eqn:Efalsy.
    { apply Hskip; [|now inversion Hbody]. unfold auction_key.
      destruct (py_or _ _) as [| | |[|c g]| |]; try reflexivity.
      destruct (py_get d "model") as [| | |[|c' m]| |]; try reflexivity.
      discriminate. }
    inv_bind Hbody as g_norm Hg. inv_bind Hbody as m_norm Hm.
    assert (Hkey : auction_key str_lower (PDict d) = Some (g_norm, m_norm)).
    { unfold auction_key.
      destruct (py_or _ _) as [| | |[|c g]| |]; try discriminate.
      destruct (py_get d "model") as [| | |[|c' m]| |]; try discriminate.
      now inversion Hg; inversion Hm. }
    destruct (decide ((g_norm, m_norm) ∈ seen)) as [Hin|Hnin].
    { apply (Hseen' _ Hkey); [now apply Hseen|now inversion Hbody]. }
    inversion Hbody; subst; clear Hbody Hskip Hseen'. simpl.
    split; [|split].
    + apply NoDup_app. split; [exact Hnd|]. split; [|apply NoDup_singleton].
      intros x Hx Hx'. apply list_elem_of_singleton in Hx'. subst x.
      apply Hnin. now apply Hseen.
    + intros key. rewrite elem_of_union, elem_of_singleton, elem_of_app,
        list_elem_of_singleton, Hseen. tauto.
    + intros key. rewrite elem_of_app, list_elem_of_singleton, Hkeys. split.
      * intros [(a' & Ha' & Hk)| ->].
        -- exists a'. split; [apply elem_of_app; now left|exact Hk].
        -- exists (PDict d). split; [apply elem_of_app; right; left|exact Hkey].
      * intros (a' & Ha' & Hk). apply elem_of_app in Ha' as [Ha'|Ha'].
        -- left. eauto.
        -- apply list_elem_of_singleton in Ha'. subst a'.
           rewrite Hkey in Hk. inversion Hk. now right.
Qed.

End ModelKeys.

(** ** The scan as a whole *)

Section ScanWhole.

Variable str_lower : pystr -> pystr.
Variable str_to_float : pystr -> option Q.
Variable getGifts : Z -> Q * Q -> pystr -> failing pyval.
Variable getAuctions : Z -> Z * Z -> pystr -> failing pyval.
Variable search : pystr -> pystr -> pystr -> failing pyval.
Variable update_auth : pystr -> pystr -> failing pystr.


(** The prices of an entry of the map lie within the band of the scan. *)
Lemma portals_prices_in_band (auth_data : pystr)
    (model_keys : list (pystr * pystr)) (min_price max_price : Q)
    (key : pystr * pystr) (fl se : option Q) :
  (key, (fl, se))
    ∈ fetch_portals_model_prices str_to_float search auth_data model_keys
        min_price max_price ->
  forall p, fl = Some p \/ se = Some p -> min_price <= p /\ p <= max_price.
Proof.
  unfold fetch_portals_model_prices. intros Hin.
  destruct (fetch_portals_model_prices_fold str_to_float search auth_data
              min_price max_price model_keys []) as [Hnd Hget]; [constructor|].
  apply (elem_of_assoc_get _ _ _ Hnd) in Hin. rewrite (Hget key) in Hin.
  destruct (decide (key ∈ model_keys)); [|discriminate].
  unfold quotes_of in Hin.
  destruct (search key.1 key.2 auth_data) as [listings|err].
  - inversion Hin as [H']. now apply floor_and_second_bounds in H'.
  - inversion Hin; subst. intros p [?|?]; discriminate.
Qed.



(** X17. With a strictly positive [min_price], the Portals spread computed
    over the price map of the scan never divides by zero: every floor in the
    map is at least [min_price]. *)
Theorem internal_flips_on_scanned_prices (auth_data : pystr)
    (model_keys : list (pystr * pystr))
    (min_price max_price min_profit_percent : Q) :
  0 < min_price ->
  exists portals_flips,
    calculate_portals_internal_flips
      (fetch_portals_model_prices str_to_float search auth_data model_keys
         min_price max_price) min_profit_percent = Ok portals_flips.
Proof.
  intros Hpos. apply for_append_total. intros [key [fl se]] Hin.
  apply internal_flip_returns. simpl. intros p ->.
  destruct (portals_prices_in_band _ _ _ _ _ _ _ Hin p) as [Hlo _]; [now left|].
  lra.
Qed.

End ScanWhole.

(** ** The floor fetchers *)

Lemma fold_left_inv {A S} (P : list A -> S -> Prop) (f : S -> A -> S)
    (l : list A) (s0 : S) :
  P [] s0 ->
  (forall done a s, P done s -> P (done ++ [a]) (f s a)) ->
  P l (fold_left f l s0).
Proof.
  intros H0 Hstep.
  enough (G : forall done s, P done s -> P (done ++ l) (fold_left f l s))
    by (apply (G [] s0 H0)).
  induction l as [|a l IH]; simpl; intros done s HP.
  - now rewrite app_nil_r.
  - replace (done ++ a :: l) with ((done ++ [a]) ++ l) by now rewrite <- app_assoc.
    apply IH. now apply Hstep.
Qed.

Lemma fold_left_omap {A B S} (f : S -> B -> S) (q : A -> option B)
    (l : list A) (s : S) :
  fold_left (fun r x => match q x with Some y => f r y | None => r end) l s
  = fold_left f (omap q l) s.
Proof.
  revert s. induction l as [|a l IH]; intros s; simpl; [reflexivity|].
  rewrite IH. now destruct (q a).
Qed.

Lemma fold_left_flat_map {A B S} (f : S -> B -> S) (g : A -> list B)
    (l : list A) (s : S) :
  fold_left (fun r x => fold_left f (g x) r) l s = fold_left f (flat_map g l) s.
Proof.
  revert s. induction l as [|a l IH]; intros s; simpl; [reflexivity|].
  now rewrite IH, fold_left_app.
Qed.

Section Reducers.

Context {K : Type} `{Countable K}.


(** Plain assignment leaves, for every key, the last of its quotes. *)
Lemma fold_keep_last (quotes : list (K * Q)) (key : K) :
  fold_left keep_last quotes (∅ : gmap K Q) !! key = latest key quotes.
Proof.
  revert key.
  apply (fold_left_inv
    (fun done (m : gmap K Q) => forall key, m !! key = latest key done)).
  - intros key. now rewrite lookup_empty.
  - intros done [k price] m IH key. unfold keep_last, latest. simpl.
    rewrite omap_app. simpl. destruct (decide (k = key)) as [->|Hne].
    + rewrite lookup_insert_eq. now rewrite last_snoc.
    + rewrite lookup_insert_ne by exact Hne. rewrite app_nil_r. apply IH.
Qed.

(** A loop that assigns the quote of each element, and raises where the
    quote raises. *)
Lemma for_fold_keep_last {A} (quote : A -> failing (option (K * Q)))
    (l : list A) (result : gmap K Q) :
  for_fold
    (fun (r : gmap K Q) x =>
       let* q := quote x in
       match q with
       | Some kq => Ok (keep_last r kq)
       | None => Ok r
       end) ∅ l = Ok result ->
  (forall x, x ∈ l -> exists q, quote x = Ok q)
  /\ result = fold_left keep_last (omap (settled quote) l) ∅.
Proof.
  generalize (∅ : gmap K Q) as r0. revert result.
  induction l as [|a l IH]; simpl; intros result r0 Hf.
  - inversion Hf; subst. split; [intros x Hx; inversion Hx|reflexivity].
  - inv_bind Hf as r1 Hr1. inv_bind Hr1 as q Hq.
    destruct (IH _ _ Hf) as [Hall ->]. split.
    + intros x Hx. apply elem_of_cons in Hx as [->|Hx]; eauto.
    + unfold settled at 2. rewrite Hq.
      destruct q as [kq|]; inversion Hr1; subst; reflexivity.
Qed.


End Reducers.

Section FloorFetchers.

Variable str_lower : pystr -> pystr.
Variable str_to_float : pystr -> option Q.
Variable filterStatsPretty : pystr -> failing pyval.
Variable giftsFloors : pystr -> failing pyval.
Variable search_cheapest : pystr -> pystr -> pystr -> failing pyval.





End FloorFetchers.

Section ItemFloorFetchers.

Variable str_lower : pystr -> pystr.
Variable str_to_float : pystr -> option Q.
Variable filterStatsPretty : pystr -> failing pyval.
Variable giftsFloors : pystr -> failing pyval.

(** X20. When [fetch_portals_floors] returns, the price it holds for a
    canonical name is that of the last entry of the response that normalises
    to the name and whose price parses: a later entry replaces an earlier one
    whatever the two prices are.  An empty response or a string gives the
    empty map. *)
Theorem fetch_portals_floors_latest (auth_data : pystr)
    (result : gmap pystr Q) :
  fetch_portals_floors str_lower str_to_float giftsFloors auth_data = Ok result ->
  exists floors,
    giftsFloors auth_data = Ok floors
    /\ (forall k,
          result !! k
          = latest k (portal_floor_quotes str_lower str_to_float floors))
    /\ (py_bool floors = false \/ is_str floors = true -> result = ∅).
Proof.
  unfold fetch_portals_floors. intros H. inv_bind H as floors Hfloors.
  exists floors. split; [exact Hfloors|].
  destruct (negb (py_bool floors) || is_str floors) eqn:Eempty.
  - inversion H; subst. split; [|reflexivity].
    intros k. rewrite lookup_empty.
    destruct floors as [|b|q|s|[|x l]|[|x d]]; try reflexivity; discriminate.
  - apply orb_false_iff in Eempty as [Hb Hs].
    apply negb_false_iff in Hb.
    split; [|intros [Hf|Hf]; congruence].
    intros k. destruct floors as [|b|q|s|l|d]; try discriminate.
    + apply for_fold_keep_last in H as [_ ->]. apply fold_keep_last.
    + inversion H; subst. unfold portal_floor_quotes.
      rewrite fold_left_omap. apply fold_keep_last.
Qed.



End ItemFloorFetchers.

(** ** Sending the answer of a scan *)

Lemma split_lines_cons (response : pystr) :
  exists line lines, split_lines response = line :: lines.
Proof.
  destruct response as [|c rest]; simpl; [eauto|].
  destruct (c =? newline)%N; [eauto|].
  destruct (split_lines rest); eauto.
Qed.

Lemma join_split_lines (response : pystr) :
  join_lines (split_lines response) = response.
Proof.
  induction response as [|c rest IH]; [reflexivity|]. cbn [split_lines].
  destruct (split_lines_cons rest) as (line & lines & Hs).
  rewrite Hs in IH |- *. destruct (N.eqb_spec c newline) as [->|Hne].
  - change (join_lines ([] :: line :: lines))
      with ([] ++ newline :: join_lines (line :: lines)).
    now rewrite IH.
  - destruct lines as [|l2 lines].
    + simpl in *. now rewrite IH.
    + change (join_lines ((c :: line) :: l2 :: lines))
        with (c :: (line ++ newline :: join_lines (l2 :: lines))).
      now rewrite <- IH.
Qed.

Lemma join_lines_snoc (lines : list pystr) (line : pystr) :
  lines <> [] ->
  join_lines (lines ++ [line]) = join_lines lines ++ newline :: line.
Proof.
  induction lines as [|l lines IH]; [congruence|]. intros _.
  destruct lines as [|l2 lines]; [reflexivity|].
  change (join_lines ((l :: l2 :: lines) ++ [line]))
    with (l ++ newline :: join_lines ((l2 :: lines) ++ [line])).
  rewrite IH by discriminate.
  change (join_lines (l :: l2 :: lines))
    with (l ++ newline :: join_lines (l2 :: lines)).
  now rewrite <- app_assoc.
Qed.

Lemma join_lines_extend (sent : list pystr) (buffer more : pystr) :
  join_lines (sent ++ [buffer ++ more]) = join_lines (sent ++ [buffer]) ++ more.
Proof.
  induction sent as [|m sent IH]; [reflexivity|].
  destruct sent as [|m2 sent].
  - simpl. now rewrite <- app_assoc.
  - change (join_lines ((m :: m2 :: sent) ++ [buffer ++ more]))
      with (m ++ newline :: join_lines ((m2 :: sent) ++ [buffer ++ more])).
    rewrite IH.
    change (join_lines ((m :: m2 :: sent) ++ [buffer]))
      with (m ++ newline :: join_lines ((m2 :: sent) ++ [buffer])).
    now rewrite <- app_assoc.
Qed.

(** X22. If no line of the response is longer than 4096 characters, no
    message sent for it is longer than 4096 characters. *)
Theorem send_in_chunks_within_limit (response : pystr) :
  Forall (fun line => (length line <= MAX_MESSAGE_LENGTH)%nat)
    (split_lines response) ->
  Forall (fun message => (length message <= MAX_MESSAGE_LENGTH)%nat)
    (send_in_chunks response).
Proof.
  intros Hlines. unfold send_in_chunks.
  destruct (Nat.leb_spec (length response) MAX_MESSAGE_LENGTH) as [Hle|Hgt].
  { now apply Forall_singleton. }
  assert (Hinv : forall lines st,
            Forall (fun line => (length line <= MAX_MESSAGE_LENGTH)%nat) lines ->
            Forall (fun m => (length m <= MAX_MESSAGE_LENGTH)%nat) (fst st) ->
            (length (snd st) <= MAX_MESSAGE_LENGTH)%nat ->
            Forall (fun m => (length m <= MAX_MESSAGE_LENGTH)%nat)
              (fst (fold_left chunk_turn lines st))
            /\ (length (snd (fold_left chunk_turn lines st))
                <= MAX_MESSAGE_LENGTH)%nat).
  { clear. induction lines as [|line lines IH]; intros [sent buffer] Hl Hs Hb;
      simpl in *; [now split|].
    apply Forall_cons in Hl as [Hline Hl]. apply IH; [exact Hl| |].
    - destruct (Nat.ltb_spec MAX_MESSAGE_LENGTH
                  (length buffer + length line + 1)); simpl; [|exact Hs].
      apply Forall_app. split; [exact Hs|]. now apply Forall_singleton.
    - destruct (Nat.ltb_spec MAX_MESSAGE_LENGTH
                  (length buffer + length line + 1)); simpl; [exact Hline|].
      destruct buffer as [|c buffer]; [exact Hline|].
      rewrite length_app. simpl in *. lia. }
  destruct (Hinv (split_lines response) ([], []) Hlines) as [Hs Hb];
    [constructor|simpl; lia|].
  destruct (fold_left chunk_turn (split_lines response) ([], []))
    as [sent buffer]. simpl in *.
  destruct buffer as [|c buffer]; [exact Hs|].
  apply Forall_app. split; [exact Hs|]. now apply Forall_singleton.
Qed.

(** X23. If every line of the response is non-empty and shorter than 4096
    characters, the messages sent are non-empty and, joined by line feeds,
    give back the response: nothing is lost, repeated or broken inside a
    line. *)
Theorem send_in_chunks_round_trip (response : pystr) :
  Forall (fun line => line <> [] /\ (length line < MAX_MESSAGE_LENGTH)%nat)
    (split_lines response) ->
  join_lines (send_in_chunks response) = response
  /\ Forall (fun message => message <> []) (send_in_chunks response).
Proof.
  intros Hlines. unfold send_in_chunks.
  destruct (length response <=? MAX_MESSAGE_LENGTH)%nat.
  { split; [reflexivity|]. apply Forall_singleton.
    destruct response; [|discriminate].
    simpl in Hlines. apply Forall_cons in Hlines as [[Hne _] _]. congruence. }
  assert (Hinv : forall lines done st,
            Forall (fun line => line <> []
                                /\ (length line < MAX_MESSAGE_LENGTH)%nat) lines ->
            (done = [] /\ st = ([], []))
            \/ (done <> [] /\ snd st <> [] /\ Forall (fun m => m <> []) (fst st)
                /\ join_lines (fst st ++ [snd st]) = join_lines done) ->
            let st' := fold_left chunk_turn lines st in
            (done ++ lines = [] /\ st' = ([], []))
            \/ (snd st' <> [] /\ Forall (fun m => m <> []) (fst st')
                /\ join_lines (fst st' ++ [snd st']) = join_lines (done ++ lines))).
  { clear. induction lines as [|line lines IH]; intros done st Hl Hst.
    - simpl. rewrite app_nil_r.
      destruct Hst as [[-> ->]|(Hd & Hb & Hs & Hj)]; [now left|now right].
    - apply Forall_cons in Hl as [[Hne Hlen] Hl]. simpl fold_left.
      replace (done ++ line :: lines) with ((done ++ [line]) ++ lines)
        by now rewrite <- app_assoc.
      apply IH; [exact Hl|]. right.
      split; [now destruct done|].
      destruct Hst as [[-> ->]|(Hd & Hb & Hs & Hj)].
      + unfold chunk_turn.
        destruct (MAX_MESSAGE_LENGTH <? length [] + length line + 1)%nat eqn:E;
          [apply Nat.ltb_lt in E; simpl in E; lia|].
        simpl. repeat split; [exact Hne|constructor].
      + destruct st as [sent buffer]. simpl in Hb, Hs, Hj. unfold chunk_turn.
        destruct (MAX_MESSAGE_LENGTH <? length buffer + length line + 1)%nat;
          simpl.
        * split; [exact Hne|]. split.
          -- apply Forall_app. split; [exact Hs|]. now apply Forall_singleton.
          -- rewrite (join_lines_snoc (sent ++ [buffer]) line)
               by now destruct sent.
             rewrite (join_lines_snoc done line) by exact Hd.
             now rewrite Hj.
        * destruct buffer as [|c buffer]; [congruence|].
          split; [discriminate|]. split; [exact Hs|].
          rewrite (join_lines_extend sent (c :: buffer) (newline :: line)).
          rewrite Hj. now rewrite join_lines_snoc. }
  specialize (Hinv (split_lines response) [] ([], []) Hlines
                (or_introl (conj eq_refl eq_refl))).
  cbv zeta in Hinv. simpl app in Hinv.
  destruct Hinv as [[Hnil _]|(Hb & Hs & Hj)].
  { destruct (split_lines_cons response) as (l & ls & Hsplit). congruence. }
  destruct (fold_left chunk_turn (split_lines response) ([], []))
    as [sent buffer]. simpl in *.
  destruct buffer as [|c buffer]; [congruence|].
  split.
  - rewrite Hj. apply join_split_lines.
  - apply Forall_app. split; [exact Hs|]. now apply Forall_singleton.
Qed.

(** ** The further properties on sample data *)

(** A full page followed by a page of one record: both are returned, in
    order. *)
Lemma fetch_tonnel_gifts_concat_witness :
  let getGifts :=
    sample_pages (R := Q * Q) full_page (Ok (PList [sample_gift "lolpop" 12])) in
  (forall p,
     p ∈ fst (fetch_tonnel_gifts_paged getGifts (str "tonnel") 0 10000 10) ->
     ~ bare_scalar (getGifts p (0, 10000) (str "tonnel")))
  /\ fetch_tonnel_gifts getGifts (str "tonnel") 0 10000 10
     = Ok (concat
             (List.map
                (fun p => gift_records (getGifts p (0, 10000) (str "tonnel")))
                (fst (fetch_tonnel_gifts_paged getGifts (str "tonnel")
                        0 10000 10)))).
Proof.
  cbv zeta.
  assert (H : forall p,
            p ∈ fst (fetch_tonnel_gifts_paged
                       (sample_pages full_page (Ok (PList [sample_gift "lolpop" 12])))
                       (str "tonnel") 0 10000 10) ->
            ~ bare_scalar
                (sample_pages (R := Q * Q) full_page
                   (Ok (PList [sample_gift "lolpop" 12])) p (0, 10000)
                   (str "tonnel"))).
  { intros p _. unfold sample_pages. destruct (p =? 1)%Z; exact (fun F => F). }
  split; [exact H|].
  exact (fetch_tonnel_gifts_concat _ _ _ _ _ H).
Defined.






(** Two listed gifts against Portals. *)
Lemma calculate_flips_ranked_witness :
  exists r,
    calculate_flips ascii_lower sample_float
      [sample_gift "plushpepe" 10; sample_gift "lolpop" 12]
      {[ str "plushpepe" := 12; str "lolpop" := 12 ]} 5 = Ok r
    /\ length r = 1%nat
    /\ StronglySorted by_profit_desc r
    /\ NoDup (List.map name r)
    /\ exists clean_status,
         flips_clean_status ascii_lower
           [sample_gift "plushpepe" 10; sample_gift "lolpop" 12]
         = Ok clean_status
         /\ forall c, c ∈ r ->
              (market_buy c = Tonnel ->
               clean c = default true (clean_status !! name c))
              /\ (market_buy c = Portals -> clean c = true).
Proof.
  eexists. split; [vm_compute; reflexivity|]. split; [reflexivity|].
  apply (calculate_flips_ranked ascii_lower sample_float
           [sample_gift "plushpepe" 10; sample_gift "lolpop" 12]
           {[ str "plushpepe" := 12; str "lolpop" := 12 ]} 5).
  vm_compute. reflexivity.
Defined.

(** An unsigned listing followed by a signed one of the same gift: the first
    loop of [calculate_flips] records the gift as clean. *)
Lemma flips_clean_status_first_witness :
  exists clean_status,
    flips_clean_status ascii_lower
      [sample_gift "Plush Pepe" 10; signed_gift "plush-pepe" 11 "sig"]
    = Ok clean_status
    /\ clean_status !! str "plushpepe" = Some true
    /\ forall k,
         clean_status !! k
         = signature_absent_or_empty <$>
             first_listing ascii_lower k
               [sample_gift "Plush Pepe" 10; signed_gift "plush-pepe" 11 "sig"].
Proof.
  eexists. split; [vm_compute; reflexivity|]. split; [vm_compute; reflexivity|].
  apply (flips_clean_status_first ascii_lower
           [sample_gift "Plush Pepe" 10; signed_gift "plush-pepe" 11 "sig"]).
  vm_compute. reflexivity.
Defined.

(** Two listings of one gift, at 12 and at 10: the floor is 10. *)
Lemma tonnel_floors_of_minimum_witness :
  exists tonnel_floors,
    tonnel_floors_of ascii_lower sample_float
      [sample_gift "plushpepe" 12; sample_gift "plushpepe" 10]
    = Ok tonnel_floors
    /\ tonnel_floors !! str "plushpepe" = Some 10
    /\ forall k,
         match tonnel_floors !! k with
         | None =>
             forall g p,
               g ∈ [sample_gift "plushpepe" 12; sample_gift "plushpepe" 10] ->
               listing_quote ascii_lower sample_float g <> Some (k, p)
         | Some floor_price =>
             (exists g,
                g ∈ [sample_gift "plushpepe" 12; sample_gift "plushpepe" 10]
                /\ listing_quote ascii_lower sample_float g
                   = Some (k, floor_price))
             /\ forall g p,
                  g ∈ [sample_gift "plushpepe" 12; sample_gift "plushpepe" 10] ->
                  listing_quote ascii_lower sample_float g = Some (k, p) ->
                  floor_price <= p
         end.
Proof.
  eexists. split; [vm_compute; reflexivity|]. split; [vm_compute; reflexivity|].
  apply (tonnel_floors_of_minimum ascii_lower sample_float
           [sample_gift "plushpepe" 12; sample_gift "plushpepe" 10]).
  vm_compute. reflexivity.
Defined.

(** Two auctions of one model under two spellings give one key. *)
Lemma collect_model_keys_distinct_witness :
  collect_model_keys ascii_lower
    [sample_auction "Plush Pepe" "Gold" 10; sample_auction "plush-pepe" "gold" 11]
  = Ok [(str "plushpepe", str "gold")]
  /\ NoDup [(str "plushpepe", str "gold")]
  /\ forall key,
       key ∈ [(str "plushpepe", str "gold")] <->
       exists a,
         a ∈ [sample_auction "Plush Pepe" "Gold" 10;
              sample_auction "plush-pepe" "gold" 11]
         /\ auction_key ascii_lower a = Some key.
Proof.
  assert (H : collect_model_keys ascii_lower
                [sample_auction "Plush Pepe" "Gold" 10;
                 sample_auction "plush-pepe" "gold" 11]
              = Ok [(str "plushpepe", str "gold")]) by (vm_compute; reflexivity).
  split; [exact H|].
  exact (collect_model_keys_distinct ascii_lower _ _ H).
Defined.



(** A band that starts at 1: the Portals spread is computed without error,
    also when Portals quotes a price of 0, which the band drops. *)
Lemma internal_flips_on_scanned_prices_witness :
  0 < 1
  /\ exists portals_flips,
       calculate_portals_internal_flips
         (fetch_portals_model_prices sample_float (sample_search 0 25)
            (str "token") [(str "plushpepe", str "gold")] 1 10000) 5
       = Ok portals_flips.
Proof.
  split; [reflexivity|].
  apply (internal_flips_on_scanned_prices sample_float (sample_search 0 25)
           (str "token") [(str "plushpepe", str "gold")] 1 10000 5).
  reflexivity.
Defined.

(** Two Portals floors for one gift under two spellings, 12 then 15: the map
    holds 15. *)
Lemma fetch_portals_floors_latest_witness :
  exists result,
    fetch_portals_floors ascii_lower sample_float sample_floors (str "token")
    = Ok result
    /\ result !! str "plushpepe" = Some 15
    /\ exists floors,
         sample_floors (str "token") = Ok floors
         /\ (forall k,
               result !! k
               = latest k (portal_floor_quotes ascii_lower sample_float floors))
         /\ (py_bool floors = false \/ is_str floors = true -> result = ∅).
Proof.
  eexists. split; [vm_compute; reflexivity|]. split; [vm_compute; reflexivity|].
  apply (fetch_portals_floors_latest ascii_lower sample_float sample_floors
           (str "token")).
  vm_compute. reflexivity.
Defined.

(** Three lines of 2000 characters: two messages, of 4001 and 2000
    characters. *)
Lemma send_in_chunks_within_limit_witness :
  Forall (fun line => (length line <= MAX_MESSAGE_LENGTH)%nat)
    (split_lines long_response)
  /\ List.map length (send_in_chunks long_response) = [4001; 2000]%nat
  /\ Forall (fun message => (length message <= MAX_MESSAGE_LENGTH)%nat)
       (send_in_chunks long_response).
Proof.
  assert (H : Forall (fun line => (length line <= MAX_MESSAGE_LENGTH)%nat)
                (split_lines long_response)).
  { apply (bool_decide_unpack _). vm_compute. reflexivity. }
  split; [exact H|]. split; [vm_compute; reflexivity|].
  exact (send_in_chunks_within_limit long_response H).
Defined.

(** The same response is recovered from its two messages. *)
Lemma send_in_chunks_round_trip_witness :
  Forall (fun line => line <> [] /\ (length line < MAX_MESSAGE_LENGTH)%nat)
    (split_lines long_response)
  /\ join_lines (send_in_chunks long_response) = long_response
  /\ Forall (fun message => message <> []) (send_in_chunks long_response).
Proof.
  assert (H : Forall (fun line => line <> []
                                  /\ (length line < MAX_MESSAGE_LENGTH)%nat)
                (split_lines long_response)).
  { apply (bool_decide_unpack _). vm_compute. reflexivity. }
  split; [exact H|].
  exact (send_in_chunks_round_trip long_response H).
Defined.


(** A full page, then a request that raises: page 2 is the last one
    requested. *)
Lemma failed_page_is_last_witness :
  let getGifts := sample_pages (R := Q * Q) full_page (Error OtherError) in
  fst (fetch_tonnel_gifts_paged getGifts (str "tonnel") 0 10000 10) = [1; 2]%Z
  /\ failed_gifts_page (getGifts 2%Z (0, 10000) (str "tonnel"))
  /\ 2%Z
     = Z.of_nat
         (length (fst (fetch_tonnel_gifts_paged getGifts (str "tonnel")
                         0 10000 10))).
Proof.
  cbv zeta.
  assert (Hp : fst (fetch_tonnel_gifts_paged
                      (sample_pages (R := Q * Q) full_page (Error OtherError))
                      (str "tonnel") 0 10000 10) = [1; 2]%Z)
    by (vm_compute; reflexivity).
  split; [exact Hp|]. split; [exact I|].
  apply (proj1 (failed_page_is_last
                  (sample_pages (R := Q * Q) full_page (Error OtherError))
                  (sample_pages (R := Z * Z) full_page (Error OtherError))
                  (str "tonnel") 0 10000 10)).
  - rewrite Hp. apply list_elem_of_further, list_elem_of_here.
  - exact I.
Defined.


